(** * stock-backtest-app: the combined strategy and its backtest driver

    A shallow embedding of [streamlit_app.py]: the strategy class
    [MyCombinedStrategy] (two entry rule sets, their combinator, the MA20
    exit, the order guard), the data fetch [get_data], the driver
    [run_backtest] and the button handler of the page.

    Conventions of the embedding.
    - The run of the strategy (orders, positions, the log, the page) is
      embedded over rationals ([Q]) with exact arithmetic; what is proved
      there rests on comparisons and on the order of the steps, not on
      how a quotient rounds.  True division by zero raises
      [ZeroDivisionError] as it does in Python.
    - What depends on rounding, the tests of the two rule sets and the
      texts reported for the total return and the Sharpe ratio, is
      embedded a second time on binary64 floats ([F64]).
    - The framework (backtrader) is not part of the repository.  Its broker
      is an interface ([BrokerOps]); the strategy is verified against every
      implementation of it, and [SimBroker] is one implementation used to
      run whole backtests.  Its MACD crossover indicator and the numeric
      part of its analyzers are parameters. *)

From Stdlib Require Import QArith Qminmax Qabs ZArith String Ascii List Bool Arith Lia Lqa.
From Stdlib Require Floats DecimalString.
Import ListNotations.
Set Warnings "-inexact-float".
Open Scope Q_scope.

(* ================================================================== *)
(** ** Exceptions and results *)

Inductive exn : Type :=
| ZeroDivisionError.

Inductive result (A : Type) : Type :=
| Ok (a : A)
| Raise (e : exn).
Arguments Ok {A} a.
Arguments Raise {A} e.

Definition bind {A B : Type} (r : result A) (k : A -> result B) : result B :=
  match r with
  | Ok a => k a
  | Raise e => Raise e
  end.

Notation "x <- c ;; k" := (bind c (fun x => k))
  (at level 61, c at next level, right associativity).
Notation "' pat <- c ;; k" := (bind c (fun x => match x with pat => k end))
  (at level 61, pat pattern, c at next level, right associativity).

(* ================================================================== *)
(** ** Python's float operators, on rationals *)

Module Py.

(** [a < b] and [a > b]. *)
Definition lt (a b : Q) : bool := negb (Qle_bool b a).
Definition gt (a b : Q) : bool := lt b a.
Definition ge (a b : Q) : bool := Qle_bool b a.

(** [a / b]: raises on a zero divisor. *)
Definition truediv (a b : Q) : result Q :=
  if Qeq_bool b 0 then Raise ZeroDivisionError else Ok (a / b).

(** [max(a, b)] and [min(a, b)]: the first argument is kept unless the
    second is strictly greater (resp. smaller). *)
Definition max (a b : Q) : Q := if gt b a then b else a.
Definition min (a b : Q) : Q := if lt b a then b else a.

End Py.

(* ================================================================== *)
(** ** Strategy parameters (the class attribute [params]) *)

Record Params : Type := {
  volume_limit_A : Z;
  volume_limit_B : Z;
  k_bar_pct : Q;
  consolidation_pct : Q;
  logic : string;
  position_size : Z
}.

Definition default_params : Params := {|
  volume_limit_A := 10000;
  volume_limit_B := 1000;
  k_bar_pct := 35 # 1000;
  consolidation_pct := 5 # 100;
  logic := "OR";
  position_size := 100
|}.

(** [cerebro.addstrategy(MyCombinedStrategy, logic=logic)] *)
Definition with_logic (p : Params) (l : string) : Params := {|
  volume_limit_A := volume_limit_A p;
  volume_limit_B := volume_limit_B p;
  k_bar_pct := k_bar_pct p;
  consolidation_pct := consolidation_pct p;
  logic := l;
  position_size := position_size p
|}.

(* ================================================================== *)
(** ** What the strategy reads on the current bar

    [datalen] is [len(self.datas[0])]; the other fields are the lines of
    [__init__] read at index [0]. *)

Record Date : Type := { year : Z; month : Z; day : Z }.

Record Snapshot : Type := {
  datadate : Date;
  datalen : nat;
  dataopen : Q;
  dataclose : Q;
  datavolume : Q;
  ma5 : Q;
  ma10 : Q;
  ma20 : Q;
  ma60 : Q;
  macd_cross : Q
}.

(* ================================================================== *)
(** ** The two entry rule sets *)

Definition check_strategy_1 (p : Params) (s : Snapshot) : result bool :=
  if (datalen s <? 60)%nat then Ok false else
  let cond_1 := Py.lt (ma60 s) (ma20 s) && Py.lt (ma20 s) (dataclose s) in
  let max_ma := Py.max (ma5 s) (ma20 s) in
  let min_ma := Py.min (ma5 s) (ma20 s) in
  ratio <- Py.truediv max_ma min_ma ;;
  let cond_2 := Py.lt ratio (1 + consolidation_pct p) in
  let cond_3 := Py.gt (datavolume s) (inject_Z (volume_limit_A p * 1000)) in
  Ok (cond_1 && cond_2 && cond_3).

Definition check_strategy_2 (p : Params) (s : Snapshot) : result bool :=
  if (datalen s <? 20)%nat then Ok false else
  let cond_1 := Py.lt (ma20 s) (ma10 s) && Py.lt (ma10 s) (dataclose s) in
  let cond_2 := Py.gt (datavolume s) (inject_Z (volume_limit_B p * 1000)) in
  cond_3 <- (if Py.gt (dataclose s) (dataopen s)
             then gain <- Py.truediv (dataclose s - dataopen s) (dataopen s) ;;
                  Ok (Py.gt gain (k_bar_pct p))
             else Ok false) ;;
  let cond_4 := Py.gt (macd_cross s) 0 in
  Ok (cond_1 && cond_2 && cond_3 && cond_4).

(** The combinator of [next]: the signal and the text logged with it. *)
Definition final_buy_signal (l : string) (signal_s1 signal_s2 : bool)
  : bool * string :=
  if String.eqb l "AND"
  then (signal_s1 && signal_s2, "S1 AND S2"%string)
  else (signal_s1 || signal_s2, "S1 OR S2"%string).

(* ================================================================== *)
(** ** Orders, the log and the strategy object *)

Inductive Side : Type := Buy | Sell.

Inductive Status : Type :=
| Created | Submitted | Accepted | Partial | Completed
| Canceled | Expired | Margin | Rejected.

(** An order as [notify_order] sees it: [ref] identifies the order object
    the broker created, [executed_price] and [executed_comm] are
    [order.executed.price] and [order.executed.comm]. *)
Record Order : Type := {
  ref : nat;
  side : Side;
  size : Z;
  status : Status;
  executed_price : Q;
  executed_comm : Q
}.

(** The texts handed to [self.log]; the numbers are the ones the f-strings
    print with two decimals. *)
Inductive LogText : Type :=
| BuyExecuted (price comm : Q)
| SellExecuted (price comm : Q)
| OrderFailed
| BuySignal (logic_str : string)
| ExitSignal.

(** The attributes [__init__] sets and the methods change.  [order] is
    [self.order]: [None], or a reference to the order object returned by
    [self.buy] / [self.sell].  An order object is truthy whatever its
    status, so [if self.order] tests for [Some]. *)
Record Strategy : Type := {
  order : option nat;
  self_position_size : Z;
  log_messages : list (Date * LogText)
}.

Definition init (p : Params) : Strategy := {|
  order := None;
  self_position_size := position_size p;
  log_messages := []
|}.

Definition log (txt : LogText) (dt : Date) (st : Strategy) : Strategy := {|
  order := order st;
  self_position_size := self_position_size st;
  log_messages := log_messages st ++ [(dt, txt)]
|}.

Definition set_order (st : Strategy) (o : option nat) : Strategy := {|
  order := o;
  self_position_size := self_position_size st;
  log_messages := log_messages st
|}.

(** [notify_order]; [dt] is the date of the current bar, which [log]
    reads from the data feed. *)
Definition notify_order (dt : Date) (o : Order) (st : Strategy) : Strategy :=
  match status o with
  | Completed =>
      match side o with
      | Buy => log (BuyExecuted (executed_price o) (executed_comm o)) dt st
      | Sell => log (SellExecuted (executed_price o) (executed_comm o)) dt st
      end
  | Canceled | Margin | Rejected => log OrderFailed dt st
  | _ => st
  end.

(* ================================================================== *)
(** ** The data feed and the broker interface *)

Record Bar : Type := {
  date : Date;
  open : Q;
  high : Q;
  low : Q;
  close : Q;
  volume : Q
}.

(** What the strategy and the driver use of the framework's broker:
    [buy] and [sell] create an order of the given size and return a
    reference to it, [getposition] is the size of [self.position],
    [broker_next] lets the broker work on a new bar and returns the orders
    whose status it reports, [getvalue] is the portfolio value at a bar. *)
Class BrokerOps (B : Type) : Type := {
  buy : B -> Z -> B * nat;
  sell : B -> Z -> B * nat;
  getposition : B -> Z;
  broker_next : B -> Bar -> B * list Order;
  getvalue : B -> option Bar -> Q
}.

(** An order submission, recorded to count them. *)
Definition Submission : Type := (Side * Z)%type.

Section Engine.

Context {B : Type} {ops : BrokerOps B}.

(** [MyCombinedStrategy.next].  Besides the new state it returns the
    orders submitted by this call. *)
Definition next (p : Params) (s : Snapshot) (st : Strategy) (b : B)
  : result (Strategy * B * list Submission) :=
  match order st with
  | Some _ => Ok (st, b, [])
  | None =>
      signal_s1 <- check_strategy_1 p s ;;
      signal_s2 <- check_strategy_2 p s ;;
      let '(final, logic_str) := final_buy_signal (logic p) signal_s1 signal_s2 in
      if (getposition b =? 0)%Z then
        if final then
          let st1 := log (BuySignal logic_str) (datadate s) st in
          let '(b1, r) := buy b (self_position_size st1) in
          Ok (set_order st1 (Some r), b1, [(Buy, self_position_size st1)])
        else Ok (st, b, [])
      else
        if Py.lt (dataclose s) (ma20 s) then
          let st1 := log ExitSignal (datadate s) st in
          let '(b1, r) := sell b (self_position_size st1) in
          Ok (set_order st1 (Some r), b1, [(Sell, self_position_size st1)])
        else Ok (st, b, [])
  end.

(** *** Indicators *)

(** Modelled from the spec: the simple moving average is the framework's
    [SimpleMovingAverage], the arithmetic mean of the close over the
    trailing [period] bars, the current bar included.  [hist] holds the
    bars seen so far, the current one first. *)
Definition sum_close (l : list Bar) : Q :=
  fold_right (fun b acc => close b + acc) 0 l.

Definition sma (period : nat) (hist : list Bar) : Q :=
  sum_close (firstn period hist) / inject_Z (Z.of_nat period).

(** The framework's [CrossOver] of the MACD line and its signal line, as
    a function of the bars seen so far. *)
Variable crossover : list Bar -> Q.

(** Until every indicator has a value the framework calls [prenext],
    which the strategy does not override; it calls [next] from the bar on
    which the longest window (60) is full.  The runs meant are those of
    feeds of 60 bars or more: a shorter feed the framework does not run
    (it fails while it prepares the indicators), which is not embedded. *)
Definition minperiod : nat := 60.

Definition snapshot (hist : list Bar) : option Snapshot :=
  match hist with
  | [] => None
  | bar :: _ =>
      if (length hist <? minperiod)%nat then None
      else Some {|
        datadate := date bar;
        datalen := length hist;
        dataopen := open bar;
        dataclose := close bar;
        datavolume := volume bar;
        ma5 := sma 5 hist;
        ma10 := sma 10 hist;
        ma20 := sma 20 hist;
        ma60 := sma 60 hist;
        macd_cross := crossover hist
      |}
  end.

(** *** The bar loop of [cerebro.run] *)

(** What one bar leaves behind: the orders submitted on it and the
    portfolio value after it. *)
Record BarRecord : Type := {
  submitted : list Submission;
  value_after : Q
}.

Definition notify_all (dt : Date) (notes : list Order) (st : Strategy)
  : Strategy :=
  fold_left (fun acc o => notify_order dt o acc) notes st.

(** One bar: the broker works on the bar and its notifications are
    delivered, then [next] runs if the indicators are ready. *)
Definition on_bar (p : Params) (hist : list Bar) (bar : Bar)
    (st : Strategy) (b : B) : result (Strategy * B * list Submission) :=
  let '(b1, notes) := broker_next b bar in
  let st1 := notify_all (date bar) notes st in
  match snapshot (bar :: hist) with
  | None => Ok (st1, b1, [])
  | Some s => next p s st1 b1
  end.

(** The loop over the feed.  An exception raised by [next] ends the run;
    the records of the bars before it are kept. *)
Fixpoint run_bars (p : Params) (todo hist : list Bar)
    (st : Strategy) (b : B) : list BarRecord * result (Strategy * B) :=
  match todo with
  | [] => ([], Ok (st, b))
  | bar :: rest =>
      match on_bar p hist bar st b with
      | Raise e => ([], Raise e)
      | Ok (st2, b2, subs) =>
          let '(recs, r) := run_bars p rest (bar :: hist) st2 b2 in
          ({| submitted := subs; value_after := getvalue b2 (Some bar) |}
             :: recs, r)
      end
  end.

(** The orders a call of [next] submitted (none if it raised). *)
Definition submitted_by (r : result (Strategy * B * list Submission))
  : list Submission :=
  match r with
  | Ok (_, _, subs) => subs
  | Raise _ => []
  end.

Definition cerebro_run (p : Params) (data : list Bar) (b : B)
  : list BarRecord * result (Strategy * B) :=
  run_bars p data [] (init p) b.

(** All submissions of a run, oldest first. *)
Definition submissions (recs : list BarRecord) : list Submission :=
  concat (map submitted recs).

End Engine.

(* ================================================================== *)
(** ** A broker to run whole backtests *)

(** Modelled from the spec: the framework's broker is not part of the
    repository.  Market orders only; an order submitted on a bar is
    resolved when the next bar arrives, at that bar's open; a buy needs
    [price * size + commission] in cash and is refused ([Margin])
    otherwise; the commission is a fixed fraction of the notional, paid on
    every fill; the value is cash plus position at the close. *)
Record SimBroker : Type := {
  cash : Q;
  position : Z;
  pending : list Order;
  next_ref : nat;
  commission : Q
}.

Definition new_order (b : SimBroker) (sd : Side) (sz : Z) : SimBroker * nat :=
  ({| cash := cash b;
      position := position b;
      pending := pending b ++
        [{| ref := next_ref b; side := sd; size := sz; status := Accepted;
            executed_price := 0; executed_comm := 0 |}];
      next_ref := S (next_ref b);
      commission := commission b |},
   next_ref b).

Definition with_status (o : Order) (s : Status) (price comm : Q) : Order := {|
  ref := ref o; side := side o; size := size o; status := s;
  executed_price := price; executed_comm := comm
|}.

(** Resolve one pending order at [price]; returns the new cash and
    position and the order as notified. *)
Definition execute (price rate : Q) (acc : Q * Z) (o : Order)
  : (Q * Z) * Order :=
  let '(c, pos) := acc in
  let notional := price * inject_Z (size o) in
  let comm := notional * rate in
  match side o with
  | Buy =>
      if Py.ge c (notional + comm)
      then ((c - notional - comm, (pos + size o)%Z),
            with_status o Completed price comm)
      else ((c, pos), with_status o Margin 0 0)
  | Sell =>
      ((c + notional - comm, (pos - size o)%Z),
       with_status o Completed price comm)
  end.

Fixpoint execute_all (price rate : Q) (acc : Q * Z) (os : list Order)
  : (Q * Z) * list Order :=
  match os with
  | [] => (acc, [])
  | o :: rest =>
      let '(acc1, o1) := execute price rate acc o in
      let '(acc2, notes) := execute_all price rate acc1 rest in
      (acc2, o1 :: notes)
  end.

Definition sim_next (b : SimBroker) (bar : Bar) : SimBroker * list Order :=
  let '((c, pos), notes) :=
    execute_all (open bar) (commission b) (cash b, position b) (pending b) in
  ({| cash := c; position := pos; pending := [];
      next_ref := next_ref b; commission := commission b |}, notes).

Definition sim_value (b : SimBroker) (bar : option Bar) : Q :=
  match bar with
  | None => cash b
  | Some x => cash b + inject_Z (position b) * close x
  end.

#[global] Instance SimBrokerOps : BrokerOps SimBroker := {|
  buy := fun b sz => new_order b Buy sz;
  sell := fun b sz => new_order b Sell sz;
  getposition := position;
  broker_next := sim_next;
  getvalue := sim_value
|}.

(** [cerebro.broker.setcash(c)] and [setcommission(commission=r)] on a
    fresh broker. *)
Definition new_broker (c r : Q) : SimBroker := {|
  cash := c; position := 0; pending := []; next_ref := 0; commission := r
|}.

(* ================================================================== *)
(** ** Dictionaries returned by the analyzers *)

Fixpoint dict_get {V : Type} (key : string) (d : list (string * V))
  : option V :=
  match d with
  | [] => None
  | (k, v) :: rest => if String.eqb k key then Some v else dict_get key rest
  end.

(** What [.get('sharperatio', 'N/A')] can yield. *)
Inductive Value : Type :=
| VNone
| VStr (s : string)
| VFloat (x : Q).

(** A value shown in the result: [None], a text, or a float printed with
    two decimals ([f"{x:.2f}"], kept as the number printed). *)
Inductive Cell : Type :=
| CNone
| CStr (s : string)
| CFixed2 (x : Q).

(** The dictionary [run_backtest] returns.  The numeric fields hold the
    number handed to the f-string, before it is rounded to two decimals
    and printed ([final_value] with [f"${x:,.2f}"], [total_return],
    [cagr] and [mdd] with [f"{x:.2f}%"]); [F64.total_return_text] is the
    text printed for the total return. *)
Record Metrics : Type := {
  final_value : Q;
  total_return : Q;
  cagr : Q;
  mdd : Q;
  sharpe : Cell;
  trade_log : list (Date * LogText)
}.

(** Sums are kept in lowest terms: a float has one representation. *)
Fixpoint sumQ (l : list Q) : Q :=
  match l with
  | [] => 0
  | x :: rest => Qred (x + sumQ rest)
  end.

Definition mean (l : list Q) : Q := sumQ l / inject_Z (Z.of_nat (length l)).

Definition variance (l : list Q) : Q :=
  let m := mean l in
  sumQ (map (fun x => (x - m) * (x - m)) l) / inject_Z (Z.of_nat (length l)).

(** Period-over-period returns of a value trajectory. *)
Fixpoint period_returns (vals : list Q) : result (list Q) :=
  match vals with
  | v0 :: (v1 :: _) as rest =>
      r <- Py.truediv v1 v0 ;;
      rs <- period_returns rest ;;
      Ok ((r - 1) :: rs)
  | _ => Ok []
  end.

Section Driver.

Variable crossover : list Bar -> Q.

(** The numeric side of the framework's analyzers: the annualised
    Sharpe ratio of a return series with non-zero variance, and the
    dictionaries of the [Returns] and [DrawDown] analyzers. *)
Variable sharpe_value : list Q -> Q.
Variable returns_analysis : list Q -> list (string * Q).
Variable drawdown_analysis : list Q -> list (string * list (string * Q)).

(** Modelled from the spec: the framework's [SharpeRatio] analyzer is
    mean excess return over the standard deviation of the
    period-over-period returns, and its entry [sharperatio] is [None]
    when that deviation is zero. *)
Definition sharpe_analysis (vals : list Q)
  : result (list (string * option Q)) :=
  rets <- period_returns vals ;;
  if Qeq_bool (variance rets) 0
  then Ok [("sharperatio"%string, None)]
  else Ok [("sharperatio"%string, Some (sharpe_value rets))].

(** Lines 206-208: the Sharpe entry of the result.  [.get] yields the
    analyzer's value, or the text ['N/A'] when the key is absent; a
    value that is neither [None] nor ['N/A'] is formatted. *)
Definition sharpe_cell (analysis : list (string * option Q)) : Cell :=
  let sharpe_ratio :=
    match dict_get "sharperatio" analysis with
    | Some None => VNone
    | Some (Some x) => VFloat x
    | None => VStr "N/A"
    end in
  match sharpe_ratio with
  | VNone => CNone
  | VStr s => CStr s
  | VFloat x => CFixed2 x
  end.

Definition last_bar (data : list Bar) : option Bar := hd_error (rev data).

(** [run_backtest]; the figure it also returns is not modelled. *)
Definition run_backtest (data : list Bar) (logic_mode : string)
    (initial_cash : Q) : result Metrics :=
  let broker := new_broker initial_cash (1 # 1000) in
  let p := with_logic default_params logic_mode in
  let '(recs, r) := cerebro_run crossover p data broker in
  '(st, b) <- r ;;
  let vals := initial_cash :: map value_after recs in
  sharpe_dict <- sharpe_analysis vals ;;
  let final := getvalue b (last_bar data) in
  let sharpe_ratio := sharpe_cell sharpe_dict in
  ret <- Py.truediv (final - initial_cash) initial_cash ;;
  Ok {|
    final_value := final;
    total_return := ret * 100;
    cagr := match dict_get "rnorm100" (returns_analysis vals) with
            | Some x => x
            | None => 0
            end;
    mdd := match dict_get "max" (drawdown_analysis vals) with
           | Some d => match dict_get "drawdown" d with
                       | Some x => x
                       | None => 0
                       end
           | None => 0
           end;
    sharpe := sharpe_ratio;
    trade_log := log_messages st
  |}.

End Driver.

(* ================================================================== *)
(** ** Data frames and [get_data] *)

(** The column index of a frame: plain labels, or the two-level labels
    the provider returns for some tickers.  Each column carries its
    values. *)
Inductive Columns : Type :=
| Index (cols : list (string * list Q))
| MultiIndex (cols : list ((string * string) * list Q)).

Record DataFrame : Type := {
  index : list Date;
  columns : Columns
}.

(** [pd.DataFrame()] *)
Definition empty_frame : DataFrame := {| index := []; columns := Index [] |}.

Definition width (c : Columns) : nat :=
  match c with
  | Index cols => length cols
  | MultiIndex cols => length cols
  end.

(** [data.empty]: an axis of length zero. *)
Definition empty (df : DataFrame) : bool :=
  (length (index df) =? 0)%nat || (width (columns df) =? 0)%nat.

Definition lower_ascii (c : ascii) : ascii :=
  let n := nat_of_ascii c in
  if ((65 <=? n) && (n <=? 90))%nat then ascii_of_nat (n + 32) else c.

Fixpoint lower (s : string) : string :=
  match s with
  | EmptyString => EmptyString
  | String c rest => String (lower_ascii c) (lower rest)
  end.

Definition mem (s : string) (l : list string) : bool :=
  existsb (String.eqb s) l.

Definition labels (cols : list (string * list Q)) : list string :=
  map fst cols.

(** [data.rename(columns={old: new})] *)
Definition rename (old new : string) (cols : list (string * list Q))
  : list (string * list Q) :=
  map (fun c => if String.eqb (fst c) old then (new, snd c) else c) cols.

(** [data[names]]: for each name in turn, the columns that carry it. *)
Definition select (names : list string) (cols : list (string * list Q))
  : list (string * list Q) :=
  flat_map (fun n => filter (fun c => String.eqb (fst c) n) cols) names.

Definition required_cols : list string :=
  ["open"; "high"; "low"; "close"; "volume"]%string.

Inductive ErrorText : Type :=
| CannotDownload (ticker : string)
| MissingColumns (missing : list string)
| FetchFailed
| StartNotBeforeEnd
| BacktestFailed.

(** What the page does, in order: calls out of the program and widgets
    written to the page. *)
Inductive Effect : Type :=
| yf_download_call (ticker : string) (start_ end_ : Date)
| cerebro_run_call (logic_mode : string) (initial_cash : Q)
| st_error (m : ErrorText)
| st_info_columns (present : list string)
| st_results (m : Metrics)
| st_info_no_trades.

(** What [yf.download] does: it raises, or returns a frame. *)
Inductive Download : Type :=
| DownloadRaises
| Downloaded (df : DataFrame).

Section Page.

Variable crossover : list Bar -> Q.
Variable sharpe_value : list Q -> Q.
Variable returns_analysis : list Q -> list (string * Q).
Variable drawdown_analysis : list Q -> list (string * list (string * Q)).

(** The provider. *)
Variable yf_download : string -> Date -> Date -> Download.

(** [get_data].  The cache of [st.cache_data] is not embedded: every
    call is a call of the provider. *)
Definition get_data (ticker : string) (start_ end_ : Date)
  : DataFrame * list Effect :=
  let called := yf_download_call ticker start_ end_ in
  match yf_download ticker start_ end_ with
  | DownloadRaises => (empty_frame, [called; st_error FetchFailed])
  | Downloaded data =>
      if empty data
      then (empty_frame, [called; st_error (CannotDownload ticker)])
      else
        let cols := match columns data with
                    | MultiIndex c => map (fun c => (fst (fst c), snd c)) c
                    | Index c => c
                    end in
        let cols := map (fun c => (lower (fst c), snd c)) cols in
        let cols := if mem "adj close" (labels cols)
                    then rename "adj close" "close" cols else cols in
        let cols := if mem "Volume" (labels cols)
                    then rename "Volume" "volume" cols else cols in
        let missing_cols :=
          filter (fun c => negb (mem c (labels cols))) required_cols in
        match missing_cols with
        | _ :: _ =>
            (empty_frame,
             [called; st_error (MissingColumns missing_cols);
              st_info_columns (labels cols)])
        | [] =>
            ({| index := index data;
                columns := Index (select required_cols cols) |},
             [called])
        end
  end.

(** The feed built from the frame ([bt.feeds.PandasData]): row [i] of
    the five columns. *)
Definition column (name : string) (df : DataFrame) : list Q :=
  match columns df with
  | Index cols =>
      match find (fun c => String.eqb (fst c) name) cols with
      | Some c => snd c
      | None => []
      end
  | MultiIndex _ => []
  end.

Definition bars_of_frame (df : DataFrame) : list Bar :=
  map (fun i => {|
         date := nth i (index df) {| year := 0; month := 0; day := 0 |};
         open := nth i (column "open" df) 0;
         high := nth i (column "high" df) 0;
         low := nth i (column "low" df) 0;
         close := nth i (column "close" df) 0;
         volume := nth i (column "volume" df) 0 |})
      (seq 0 (length (index df))).

(** The sidebar inputs ([ticker] is the text typed, in upper case). *)
Record Sidebar : Type := {
  ticker : string;
  start_date : Date;
  end_date : Date;
  initial_cash : Q;
  logic_mode : string
}.

Definition date_lt (a b : Date) : bool :=
  ((year a <? year b)
   || ((year a =? year b)
       && ((month a <? month b)
           || ((month a =? month b) && (day a <? day b)))))%Z.

Definition date_ge (a b : Date) : bool := negb (date_lt a b).

(** The handler of the button: the effects in order, and the exception
    that ends it, if one does. *)
Definition on_click (ui : Sidebar) : list Effect * option exn :=
  if date_ge (start_date ui) (end_date ui)
  then ([st_error StartNotBeforeEnd], None)
  else
    let '(data, fx) := get_data (ticker ui) (start_date ui) (end_date ui) in
    if negb (empty data) then
      let run := cerebro_run_call (logic_mode ui) (initial_cash ui) in
      match run_backtest crossover sharpe_value returns_analysis
              drawdown_analysis (bars_of_frame data) (logic_mode ui)
              (initial_cash ui) with
      | Raise e => (fx ++ [run], Some e)
      | Ok metrics =>
          (fx ++ [run; st_results metrics]
              ++ match trade_log metrics with
                 | [] => [st_info_no_trades]
                 | _ :: _ => []
                 end,
           None)
      end
    else (fx ++ [st_error BacktestFailed], None).

End Page.

(* ================================================================== *)
(** ** The numeric layer in binary64

    The two rule sets, the total return and the Sharpe entry compute
    with Python floats, which are IEEE 754 binary64 numbers.  Here they
    are embedded on Rocq's primitive floats, whose operations round as
    Python's do; comparisons with an integer are exact, as in Python. *)

Module F64.

Import Floats.

(** [a < b] and [a > b] on two floats. *)
Definition lt (a b : float) : bool := PrimFloat.ltb a b.
Definition gt (a b : float) : bool := PrimFloat.ltb b a.

(** [b == 0]: true of both zeros, false of NaN. *)
Definition is_zero (b : float) : bool := PrimFloat.eqb b 0%float.

(** [a / b]: raises on a zero divisor. *)
Definition truediv (a b : float) : result float :=
  if is_zero b then Raise ZeroDivisionError else Ok (PrimFloat.div a b).

(** [max(a, b)] and [min(a, b)]: the first argument is kept unless the
    second is strictly greater (resp. smaller). *)
Definition max (a b : float) : float := if gt b a then b else a.
Definition min (a b : float) : float := if lt b a then b else a.

Definition signed (s : bool) (m : positive) : Z :=
  if s then Z.neg m else Z.pos m.

(** [v > n] for a float and an integer: Python compares the two
    exactly, without converting the integer. *)
Definition gt_int (v : float) (n : Z) : bool :=
  match Prim2SF v with
  | S754_nan => false
  | S754_infinity s => negb s
  | S754_zero _ => (n <? 0)%Z
  | S754_finite s m e =>
      if (0 <=? e)%Z then (n <? signed s m * 2 ^ e)%Z
      else (n * 2 ^ (- e) <? signed s m)%Z
  end.


(** [num / den] rounded to the nearest integer, ties to the even one. *)
Definition round_half_even (num den : Z) : Z :=
  let q := (num / den)%Z in
  let r := (num mod den)%Z in
  match (2 * r ?= den)%Z with
  | Lt => q
  | Gt => (q + 1)%Z
  | Eq => if Z.even q then q else (q + 1)%Z
  end.

(** The magnitude [m * 2^e] in hundredths, correctly rounded. *)
Definition hundredths (m : positive) (e : Z) : Z :=
  if (0 <=? e)%Z then (Z.pos m * 2 ^ e * 100)%Z
  else round_half_even (Z.pos m * 100) (2 ^ (- e)).

Definition digits (n : Z) : string :=
  DecimalString.NilZero.string_of_uint (N.to_uint (Z.to_N n)).

(** A sign, the integer part, a point and two digits. *)
Definition fixed2 (s : bool) (h : Z) : string :=
  ((if s then "-" else "")
   ++ digits (h / 100) ++ "."
   ++ (if (h mod 100 <? 10)%Z then "0" else "") ++ digits (h mod 100))%string.

(** [f"{x:.2f}"]: the decimal nearest to [x] with two digits after the
    point, the sign of [x] kept; [nan] and [inf] for the special values. *)
Definition format_2f (x : float) : string :=
  match Prim2SF x with
  | S754_nan => "nan"
  | S754_infinity s => if s then "-inf" else "inf"
  | S754_zero s => fixed2 s 0
  | S754_finite s m e => fixed2 s (hundredths m e)
  end.

(** The class attribute [params]. *)
Record Params : Type := {
  volume_limit_A : Z;
  volume_limit_B : Z;
  k_bar_pct : float;
  consolidation_pct : float;
  logic : string;
  position_size : Z
}.

Definition default_params : Params := {|
  volume_limit_A := 10000;
  volume_limit_B := 1000;
  k_bar_pct := 0.035%float;
  consolidation_pct := 0.05%float;
  logic := "OR";
  position_size := 100
|}.

(** What the rule sets read on the current bar. *)
Record Snapshot : Type := {
  datalen : nat;
  dataopen : float;
  dataclose : float;
  datavolume : float;
  ma5 : float;
  ma10 : float;
  ma20 : float;
  ma60 : float;
  macd_cross : float
}.

Definition check_strategy_1 (p : Params) (s : Snapshot) : result bool :=
  if (datalen s <? 60)%nat then Ok false else
  let cond_1 := lt (ma60 s) (ma20 s) && lt (ma20 s) (dataclose s) in
  let max_ma := max (ma5 s) (ma20 s) in
  let min_ma := min (ma5 s) (ma20 s) in
  ratio <- truediv max_ma min_ma ;;
  let cond_2 := lt ratio (PrimFloat.add 1%float (consolidation_pct p)) in
  let cond_3 := gt_int (datavolume s) (volume_limit_A p * 1000) in
  Ok (cond_1 && cond_2 && cond_3).

Definition check_strategy_2 (p : Params) (s : Snapshot) : result bool :=
  if (datalen s <? 20)%nat then Ok false else
  let cond_1 := lt (ma20 s) (ma10 s) && lt (ma10 s) (dataclose s) in
  let cond_2 := gt_int (datavolume s) (volume_limit_B p * 1000) in
  cond_3 <- (if gt (dataclose s) (dataopen s)
             then gain <- truediv (PrimFloat.sub (dataclose s) (dataopen s))
                                  (dataopen s) ;;
                  Ok (gt gain (k_bar_pct p))
             else Ok false) ;;
  let cond_4 := gt_int (macd_cross s) 0 in
  Ok (cond_1 && cond_2 && cond_3 && cond_4).


(** A Python value of the kinds the Sharpe entry can hold. *)
Inductive PyValue : Type :=
| PyNone
| PyStr (s : string)
| PyFloat (x : float).

(** Lines 206-208 of [run_backtest]: the Sharpe entry of the result,
    from the analyzer's dictionary, whose value is [None] or a float. *)
Definition sharpe_metric (analysis : list (string * option float)) : PyValue :=
  let sharpe_ratio :=
    match dict_get "sharperatio" analysis with
    | Some (Some x) => PyFloat x
    | Some None => PyNone
    | None => PyStr "N/A"
    end in
  match sharpe_ratio with
  | PyNone => PyNone
  | PyStr s => PyStr s
  | PyFloat x => PyStr (format_2f x)
  end.

End F64.

(* ================================================================== *)
(** ** Reading the log *)

(** The entries [next] writes when it submits an order. *)
Definition is_signal (t : LogText) : bool :=
  match t with
  | BuySignal _ | ExitSignal => true
  | _ => false
  end.

Definition signals (l : list (Date * LogText)) : list (Date * LogText) :=
  filter (fun e => is_signal (snd e)) l.

(* ================================================================== *)
(** ** Reading the download *)

(** The label a column of the download ends up with: lower case, with
    ['adj close'] read as ['close']. *)
Definition normalize (l : string) : string :=
  let l' := lower l in
  if String.eqb l' "adj close" then "close"%string else l'.

(** The labels of the download (the first level of two-level labels). *)
Definition raw_labels (c : Columns) : list string :=
  match c with
  | Index cols => map fst cols
  | MultiIndex cols => map (fun c => fst (fst c)) cols
  end.

(** A required field is missing after normalization. *)
Definition lacks_required (df : DataFrame) : bool :=
  existsb (fun r => negb (mem r (map normalize (raw_labels (columns df)))))
          required_cols.

(** The fetch found nothing usable: the download raised (as for a symbol
    the provider rejects), came back empty, or lacks a required field. *)
Definition data_unavailable (d : Download) : bool :=
  match d with
  | DownloadRaises => true
  | Downloaded df => empty df || lacks_required df
  end.

(** The columns of the download under their first-level label, and the
    same columns under their normalized label. *)
Definition level0 (c : Columns) : list (string * list Q) :=
  match c with
  | Index cols => cols
  | MultiIndex cols => map (fun c => (fst (fst c), snd c)) cols
  end.

Definition normalized (df : DataFrame) : list (string * list Q) :=
  map (fun c => (normalize (fst c), snd c)) (level0 (columns df)).

(** The effects [get_data] can have. *)
Definition fetch_effect (e : Effect) : bool :=
  match e with
  | yf_download_call _ _ _ | st_error _ | st_info_columns _ => true
  | _ => false
  end.

(* ================================================================== *)
(** ** Sample inputs *)

(** A bar with 60 bars of history on which Rule Set 2 holds and Rule
    Set 1 fails on volume alone. *)
Definition breakout_bar : Snapshot := {|
  datadate := {| year := 2020; month := 4; day := 1 |};
  datalen := 60;
  dataopen := 100; dataclose := 105; datavolume := 2000000;
  ma5 := 100; ma10 := 100; ma20 := 98; ma60 := 97;
  macd_cross := 1
|}.

(** [breakout_bar] on a volume that satisfies Rule Set 1 as well. *)
Definition strong_bar : Snapshot := {|
  datadate := {| year := 2020; month := 4; day := 1 |};
  datalen := 60;
  dataopen := 100; dataclose := 105; datavolume := 20000000;
  ma5 := 100; ma10 := 100; ma20 := 98; ma60 := 97;
  macd_cross := 1
|}.

(** A bar that closes below MA20, and a broker holding 100 units. *)
Definition breakdown_bar : Snapshot := {|
  datadate := {| year := 2020; month := 4; day := 3 |};
  datalen := 62;
  dataopen := 90; dataclose := 90; datavolume := 1000;
  ma5 := 98; ma10 := 100; ma20 := 101; ma60 := 100;
  macd_cross := 0
|}.

Definition holding_broker : SimBroker := {|
  cash := 89000; position := 100; pending := []; next_ref := 1;
  commission := 1 # 1000
|}.

(** Bar [i] of a sample feed: a date, one price for open, high, low and
    close, and a volume. *)
Definition day_of (i : nat) : Date := {|
  year := 2020;
  month := 1 + Z.of_nat (i / 28);
  day := 1 + Z.of_nat (i mod 28)
|}.

Definition ohlc (i : nat) (price vol : Q) : Bar := {|
  date := day_of i;
  open := price; high := price; low := price; close := price;
  volume := vol
|}.

(** 63 daily bars: 40 at 100, 19 at 102, the 60th at 103 on a volume of
    11,000,000, one more at 103, then two at 90.  On the 60th bar Rule Set
    1 holds; the 62nd and 63rd close below MA20. *)
Definition exit_run : list Bar :=
  map (fun i =>
         ohlc i
           (if (i <? 40)%nat then 100
            else if (i <? 59)%nat then 102
            else if (i <? 61)%nat then 103
            else 90)
           (if (i =? 59)%nat then 11000000 else 1000))
      (seq 0 63).

(** Providers: one that raises, one that returns the five columns with
    no row, one that returns two rows without a volume column, one that
    returns two full rows. *)
Definition provider_raises (t : string) (a b : Date) : Download :=
  DownloadRaises.

Definition provider_zero_rows (t : string) (a b : Date) : Download :=
  Downloaded {|
    index := [];
    columns := Index [("Open", []); ("High", []); ("Low", []);
                      ("Close", []); ("Volume", [])]%string
  |}.

Definition provider_no_volume (t : string) (a b : Date) : Download :=
  Downloaded {|
    index := [day_of 0; day_of 1];
    columns := Index [("Open", [10; 11]); ("High", [12; 12]);
                      ("Low", [9; 10]); ("Close", [11; 11])]%string
  |}.

Definition provider_two_days (t : string) (a b : Date) : Download :=
  Downloaded {|
    index := [day_of 0; day_of 1];
    columns := MultiIndex
                 [(("Close", t), [11; 11]); (("High", t), [12; 12]);
                  (("Low", t), [9; 10]); (("Open", t), [10; 11]);
                  (("Volume", t), [5000; 7000])]%string
  |}.

Definition jan_2018 : Date := {| year := 2018; month := 1; day := 1 |}.
Definition jan_2023 : Date := {| year := 2023; month := 1; day := 1 |}.

(** A provider that hands back what [get_data] made of
    [provider_two_days]. *)
Definition provider_refetch (t : string) (a b : Date) : Download :=
  Downloaded (fst (get_data provider_two_days "AAPL" jan_2018 jan_2023)).

Definition ui_valid : Sidebar := {|
  ticker := "AAPL"; start_date := jan_2018; end_date := jan_2023;
  initial_cash := 100000; logic_mode := "OR"
|}.

(** Sidebar inputs: a ticker the provider rejects; valid dates with a
    negative and with a zero initial cash; a start date after the end
    date. *)
Definition ui_nosuch : Sidebar := {|
  ticker := "NOSUCH"; start_date := jan_2018; end_date := jan_2023;
  initial_cash := 100000; logic_mode := "OR"
|}.

Definition ui_negative_cash : Sidebar := {|
  ticker := "AAPL"; start_date := jan_2018; end_date := jan_2023;
  initial_cash := -5; logic_mode := "OR"
|}.

Definition ui_zero_cash : Sidebar := {|
  ticker := "AAPL"; start_date := jan_2018; end_date := jan_2023;
  initial_cash := 0; logic_mode := "OR"
|}.

Definition ui_reversed_dates : Sidebar := {|
  ticker := "AAPL"; start_date := jan_2023; end_date := jan_2018;
  initial_cash := 100000; logic_mode := "OR"
|}.

(** A provider that returns the 63 bars of [exit_run]. *)
Definition provider_sixty_three (t : string) (a b : Date) : Download :=
  Downloaded {|
    index := map date exit_run;
    columns := Index [("Open", map open exit_run);
                      ("High", map high exit_run);
                      ("Low", map low exit_run);
                      ("Close", map close exit_run);
                      ("Volume", map volume exit_run)]%string
  |}.

(** The errors written to the page. *)
Definition is_error (e : Effect) : bool :=
  match e with
  | st_error _ => true
  | _ => false
  end.

(** Stand-ins for the framework's numeric parts in sample runs. *)
Definition no_cross (hist : list Bar) : Q := 0.
Definition zero_sharpe (rets : list Q) : Q := 0.
Definition no_returns (vals : list Q) : list (string * Q) := [].
Definition no_drawdown (vals : list Q)
  : list (string * list (string * Q)) := [].

Section SamplesF64.

Import Floats.
Import F64.


Definition f64_strong_bar : Snapshot := {|
  datalen := 60;
  dataopen := 100; dataclose := 105; datavolume := 20000000;
  ma5 := 100; ma10 := 100; ma20 := 98; ma60 := 97;
  macd_cross := 1
|}%float.

Definition f64_edge_bar : Snapshot := {|
  datalen := 60;
  dataopen := 26.0; dataclose := 26.91; datavolume := 20000000;
  ma5 := 3.0; ma10 := 3.2; ma20 := 3.15; ma60 := 3.1;
  macd_cross := 1
|}%float.


End SamplesF64.

(* ================================================================== *)
(** ** Facts about the operators on rationals *)

Lemma lt_true_iff (a b : Q) : Py.lt a b = true <-> a < b.
Proof.
  unfold Py.lt. rewrite negb_true_iff. split.
  - intro H. apply Qnot_le_lt. intro Hle.
    apply Qle_bool_iff in Hle. congruence.
  - intro H. destruct (Qle_bool b a) eqn:E; [|reflexivity].
    apply Qle_bool_iff in E. exfalso. exact (Qlt_not_le _ _ H E).
Qed.

Lemma gt_true_iff (a b : Q) : Py.gt a b = true <-> b < a.
Proof. unfold Py.gt. apply lt_true_iff. Qed.

Lemma max_is_Qmax (a b : Q) : Py.max a b == Qmax a b.
Proof.
  unfold Py.max. destruct (Py.gt b a) eqn:E.
  - apply gt_true_iff in E. symmetry. apply Q.max_r. apply Qlt_le_weak, E.
  - symmetry. apply Q.max_l. apply Qnot_lt_le. intro H.
    apply gt_true_iff in H. congruence.
Qed.

Lemma min_is_Qmin (a b : Q) : Py.min a b == Qmin a b.
Proof.
  unfold Py.min. destruct (Py.lt b a) eqn:E.
  - apply lt_true_iff in E. symmetry. apply Q.min_r. apply Qlt_le_weak, E.
  - symmetry. apply Q.min_l. apply Qnot_lt_le. intro H.
    apply lt_true_iff in H. congruence.
Qed.

Lemma truediv_Ok_iff (a b q : Q) :
  Py.truediv a b = Ok q <-> ~ b == 0 /\ q = a / b.
Proof.
  unfold Py.truediv. destruct (Qeq_bool b 0) eqn:E.
  - apply Qeq_bool_iff in E. split; [discriminate | tauto].
  - apply Qeq_bool_neq in E. split.
    + intro H. injection H as <-. tauto.
    + intros [_ ->]. reflexivity.
Qed.

Lemma truediv_Raise_iff (a b : Q) (e : exn) :
  Py.truediv a b = Raise e <-> b == 0.
Proof.
  unfold Py.truediv. destruct (Qeq_bool b 0) eqn:E.
  - apply Qeq_bool_iff in E. destruct e. tauto.
  - apply Qeq_bool_neq in E. split; [discriminate | tauto].
Qed.

#[global] Instance lt_Proper : Proper (Qeq ==> Qeq ==> eq) Py.lt.
Proof. intros a a' Ha b b' Hb. unfold Py.lt. now rewrite Ha, Hb. Qed.

#[global] Instance gt_Proper : Proper (Qeq ==> Qeq ==> eq) Py.gt.
Proof. intros a a' Ha b b' Hb. unfold Py.gt. now rewrite Ha, Hb. Qed.

Lemma lt_false_iff (a b : Q) : Py.lt a b = false <-> b <= a.
Proof.
  unfold Py.lt. rewrite negb_false_iff. apply Qle_bool_iff.
Qed.

Lemma lt_irrefl_eq (a b : Q) : a == b -> Py.lt a b = false.
Proof. intro H. apply lt_false_iff. rewrite H. apply Qle_refl. Qed.

Lemma bind_Ok_iff {A C : Type} (r : result A) (k : A -> result C) (c : C) :
  bind r k = Ok c <-> exists a, r = Ok a /\ k a = Ok c.
Proof.
  destruct r as [a|e]; simpl; split.
  - intro H. exists a. auto.
  - intros (a' & Ha & Hk). injection Ha as <-. exact Hk.
  - discriminate.
  - intros (a' & Ha & _). discriminate.
Qed.

(* ================================================================== *)
(** ** The entry rule sets *)

(** Where the rule sets raise instead of answering: on a zero divisor. *)
Lemma check_strategy_1_raises (p : Params) (s : Snapshot) (e : exn) :
  check_strategy_1 p s = Raise e
  <-> (60 <= datalen s)%nat /\ Qmin (ma5 s) (ma20 s) == 0.
Proof.
  unfold check_strategy_1.
  destruct (datalen s <? 60)%nat eqn:Hlen.
  - apply Nat.ltb_lt in Hlen. split; [discriminate | intros [H _]; lia].
  - apply Nat.ltb_ge in Hlen. rewrite <- min_is_Qmin.
    destruct (Py.truediv (Py.max (ma5 s) (ma20 s)) (Py.min (ma5 s) (ma20 s)))
      as [q|e'] eqn:E; simpl.
    + apply truediv_Ok_iff in E. destruct E as [Hnz _].
      split; [discriminate | intros [_ H]; contradiction].
    + apply truediv_Raise_iff in E. destruct e, e'. tauto.
Qed.

Lemma check_strategy_2_raises (p : Params) (s : Snapshot) (e : exn) :
  check_strategy_2 p s = Raise e
  <-> (20 <= datalen s)%nat /\ dataopen s < dataclose s /\ dataopen s == 0.
Proof.
  unfold check_strategy_2.
  destruct (datalen s <? 20)%nat eqn:Hlen.
  - apply Nat.ltb_lt in Hlen. split; [discriminate | intros [H _]; lia].
  - apply Nat.ltb_ge in Hlen.
    destruct (Py.gt (dataclose s) (dataopen s)) eqn:Hup.
    + apply gt_true_iff in Hup.
      destruct (Py.truediv (dataclose s - dataopen s) (dataopen s))
        as [q|e'] eqn:E; simpl.
      * apply truediv_Ok_iff in E. destruct E as [Hnz _].
        split; [discriminate | intros (_ & _ & H); contradiction].
      * apply truediv_Raise_iff in E. destruct e, e'. tauto.
    + simpl. split; [discriminate|]. intros (_ & H & _).
      apply gt_true_iff in H. congruence.
Qed.

Section RuleSetsF64.

Import Floats.
Import F64.




(** At MA5 = 3.0 and MA20 = 3.15 the quotient rounds to a float that is
    not below the float 1 + 0.05, and Rule Set 1 answers [False] though
    every other condition holds; at open = 26.0 and close = 26.91 the
    gain rounds to a float that is not above the float 0.035, and Rule
    Set 2 answers [False]. *)
Lemma rule_sets_round :
  check_strategy_1 default_params f64_edge_bar = Ok false
  /\ check_strategy_2 default_params f64_edge_bar = Ok false
  /\ check_strategy_1 default_params f64_strong_bar = Ok true
  /\ check_strategy_2 default_params f64_strong_bar = Ok true.
Proof. repeat split; vm_compute; reflexivity. Qed.



End RuleSetsF64.

(* ================================================================== *)
(** ** The combinator *)

(** C5. With [logic = 'AND'] the combined signal holds only when both
    rule sets hold, with ['OR'] when either does, and ['OR'] is the
    default; on a bar with no order stored and no position, [next] submits
    a buy of the configured size exactly when the combined signal holds. *)
Theorem entry_combinator_spec {B : Type} {ops : BrokerOps B}
    (p : Params) (s : Snapshot) (st : Strategy) (b : B) (s1 s2 : bool) :
  (fst (final_buy_signal "AND" s1 s2) = true <-> s1 = true /\ s2 = true)
  /\ (fst (final_buy_signal "OR" s1 s2) = true <-> s1 = true \/ s2 = true)
  /\ logic default_params = "OR"%string
  /\ (order st = None -> getposition b = 0%Z ->
      check_strategy_1 p s = Ok s1 -> check_strategy_2 p s = Ok s2 ->
      submitted_by (next p s st b)
      = if fst (final_buy_signal (logic p) s1 s2)
        then [(Buy, self_position_size st)] else []).
Proof.
  split; [|split; [|split]].
  - simpl. apply andb_true_iff.
  - simpl. apply orb_true_iff.
  - reflexivity.
  - intros Hord Hpos H1 H2. unfold next.
    rewrite Hord, H1, H2. simpl. rewrite Hpos. simpl.
    destruct (final_buy_signal (logic p) s1 s2) as [final logic_str].
    simpl. destruct final; [|reflexivity].
    destruct (buy b (self_position_size st)) as [b1 r]. reflexivity.
Qed.

Lemma entry_combinator_spec_witness :
  submitted_by (next default_params breakout_bar (init default_params)
                     (new_broker 100000 (1 # 1000)))
  = [(Buy, 100%Z)].
Proof.
  exact (proj2 (proj2 (proj2
           (entry_combinator_spec default_params breakout_bar
              (init default_params) (new_broker 100000 (1 # 1000))
              false true)))
         eq_refl eq_refl eq_refl eq_refl).
Defined.

(* ================================================================== *)
(** ** The order guard *)

Section GuardFacts.

Context {B : Type} {ops : BrokerOps B}.
Variable crossover : list Bar -> Q.

Lemma notify_order_keeps_order (dt : Date) (o : Order) (st : Strategy) :
  order (notify_order dt o st) = order st.
Proof.
  unfold notify_order.
  destruct (status o); try reflexivity.
  destruct (side o); reflexivity.
Qed.

Lemma notify_all_keeps_order (dt : Date) (notes : list Order) (st : Strategy) :
  order (notify_all dt notes st) = order st.
Proof.
  unfold notify_all. revert st.
  induction notes as [|o notes IH]; intro st; simpl.
  - reflexivity.
  - rewrite IH. apply notify_order_keeps_order.
Qed.

Lemma next_guard (p : Params) (s : Snapshot) (st : Strategy) (b : B) (r : nat) :
  order st = Some r -> next p s st b = Ok (st, b, []).
Proof. intro H. unfold next. now rewrite H. Qed.

(** A call of [next] either submits nothing and leaves [self.order] as it
    was, or submits one order and stores it. *)
Lemma next_cases (p : Params) (s : Snapshot) (st st' : Strategy) (b b' : B)
    (subs : list Submission) :
  next p s st b = Ok (st', b', subs) ->
  (subs = [] /\ order st' = order st)
  \/ (exists sub r, subs = [sub] /\ order st' = Some r).
Proof.
  unfold next. destruct (order st) as [r|] eqn:Hord.
  - intro H. injection H as <- <- <-. left. auto.
  - destruct (check_strategy_1 p s) as [s1|e]; [|discriminate].
    destruct (check_strategy_2 p s) as [s2|e]; [|discriminate].
    simpl.
    destruct (final_buy_signal (logic p) s1 s2) as [final logic_str].
    destruct (getposition b =? 0)%Z.
    + destruct final.
      * destruct (buy b _) as [b1 r]. intro H. injection H as <- <- <-.
        right. do 2 eexists. split; reflexivity.
      * intro H. injection H as <- <- <-. left. auto.
    + destruct (Py.lt (dataclose s) (ma20 s)).
      * destruct (sell b _) as [b1 r]. intro H. injection H as <- <- <-.
        right. do 2 eexists. split; reflexivity.
      * intro H. injection H as <- <- <-. left. auto.
Qed.

Lemma on_bar_cases (p : Params) (hist : list Bar) (bar : Bar)
    (st st' : Strategy) (b b' : B) (subs : list Submission) :
  on_bar crossover p hist bar st b = Ok (st', b', subs) ->
  (subs = [] /\ order st' = order st)
  \/ (exists sub r, subs = [sub] /\ order st' = Some r).
Proof.
  unfold on_bar. destruct (broker_next b bar) as [b1 notes].
  destruct (snapshot crossover (bar :: hist)) as [s|].
  - intro H. apply next_cases in H.
    rewrite notify_all_keeps_order in H. exact H.
  - intro H. injection H as <- <- <-. left.
    split; [reflexivity | apply notify_all_keeps_order].
Qed.

Lemma on_bar_guard (p : Params) (hist : list Bar) (bar : Bar)
    (st : Strategy) (b : B) (r : nat) :
  order st = Some r ->
  exists st' b', on_bar crossover p hist bar st b = Ok (st', b', [])
                 /\ order st' = Some r.
Proof.
  intro H. unfold on_bar. destruct (broker_next b bar) as [b1 notes].
  assert (Hn : order (notify_all (date bar) notes st) = Some r)
    by (rewrite notify_all_keeps_order; exact H).
  destruct (snapshot crossover (bar :: hist)) as [s|].
  - rewrite (next_guard p s _ b1 r Hn). eauto.
  - eauto.
Qed.

(** Once an order is stored, the rest of the run submits nothing. *)
Lemma run_bars_after_submission (p : Params) (todo hist : list Bar)
    (st : Strategy) (b : B) (r : nat) :
  order st = Some r ->
  submissions (fst (run_bars crossover p todo hist st b)) = [].
Proof.
  revert hist st b.
  induction todo as [|bar rest IH]; intros hist st b H; simpl.
  - reflexivity.
  - destruct (on_bar_guard p hist bar st b r H) as (st' & b' & -> & H').
    specialize (IH (bar :: hist) st' b' H').
    destruct (run_bars crossover p rest (bar :: hist) st' b') as [recs res].
    simpl in *. exact IH.
Qed.

Lemma run_bars_total (p : Params) (todo hist : list Bar)
    (st : Strategy) (b : B) :
  (length (submissions (fst (run_bars crossover p todo hist st b))) <= 1)%nat.
Proof.
  revert hist st b.
  induction todo as [|bar rest IH]; intros hist st b; simpl.
  - lia.
  - destruct (on_bar crossover p hist bar st b) as [[[st' b'] subs]|e] eqn:E;
      [|simpl; lia].
    pose proof (IH (bar :: hist) st' b') as IH'.
    destruct (on_bar_cases p hist bar st st' b b' subs E)
      as [[-> _]|(sub & r & -> & Hr)].
    + destruct (run_bars crossover p rest (bar :: hist) st' b') as [recs res].
      simpl in *. exact IH'.
    + pose proof (run_bars_after_submission p rest (bar :: hist) st' b' r Hr)
        as Hnil.
      destruct (run_bars crossover p rest (bar :: hist) st' b') as [recs res].
      unfold submissions in *. simpl in *. rewrite Hnil. simpl. lia.
Qed.

Lemma run_bars_each_bar (p : Params) (todo hist : list Bar)
    (st : Strategy) (b : B) :
  Forall (fun rec => (length (submitted rec) <= 1)%nat)
         (fst (run_bars crossover p todo hist st b)).
Proof.
  revert hist st b.
  induction todo as [|bar rest IH]; intros hist st b; simpl.
  - constructor.
  - destruct (on_bar crossover p hist bar st b) as [[[st' b'] subs]|e] eqn:E;
      [|constructor].
    pose proof (IH (bar :: hist) st' b') as IH'.
    destruct (run_bars crossover p rest (bar :: hist) st' b') as [recs res].
    simpl in *. constructor; [|exact IH'].
    simpl. destruct (on_bar_cases p hist bar st st' b b' subs E)
      as [[-> _]|(sub & r & -> & _)]; simpl; lia.
Qed.

End GuardFacts.

(** C6. At most one order is submitted per bar, in every run and from
    every state, and while an order is stored [next] returns at once: it
    evaluates no rule (it cannot raise), leaves the strategy and the
    broker as they are and submits nothing. *)
Theorem one_order_outstanding {B : Type} {ops : BrokerOps B}
    (crossover : list Bar -> Q) (p : Params) :
  (forall (todo hist : list Bar) (st : Strategy) (b : B),
     Forall (fun rec => (length (submitted rec) <= 1)%nat)
            (fst (run_bars crossover p todo hist st b)))
  /\ (forall (s : Snapshot) (st : Strategy) (b : B),
        (length (submitted_by (next p s st b)) <= 1)%nat)
  /\ (forall (s : Snapshot) (st : Strategy) (b : B) (r : nat),
        order st = Some r -> next p s st b = Ok (st, b, [])).
Proof.
  split; [|split].
  - intros. apply run_bars_each_bar.
  - intros s st b. destruct (next p s st b) as [[[st' b'] subs]|e] eqn:E.
    + destruct (next_cases p s st st' b b' subs E)
        as [[-> _]|(sub & r & -> & _)]; simpl; lia.
    + simpl. lia.
  - intros s st b r. apply next_guard.
Qed.

Lemma one_order_outstanding_witness :
  next default_params breakout_bar
    (set_order (init default_params) (Some 0%nat))
    (new_broker 100000 (1 # 1000))
  = Ok (set_order (init default_params) (Some 0%nat),
        new_broker 100000 (1 # 1000), []).
Proof.
  exact (proj2 (proj2 (one_order_outstanding no_cross default_params))
           breakout_bar (set_order (init default_params) (Some 0%nat))
           (new_broker 100000 (1 # 1000)) 0%nat eq_refl).
Defined.

(** C2. A run submits at most one order in total: [notify_order] never
    changes [self.order], whatever the status it is told; with an order
    stored [next] returns at once; so from the first submission on, no
    bar of the run submits anything. *)
Theorem at_most_one_order_per_run {B : Type} {ops : BrokerOps B}
    (crossover : list Bar -> Q) (p : Params) :
  (forall (data : list Bar) (b : B),
     (length (submissions (fst (cerebro_run crossover p data b))) <= 1)%nat)
  /\ (forall (dt : Date) (o : Order) (st : Strategy),
        order (notify_order dt o st) = order st)
  /\ (forall (s : Snapshot) (st : Strategy) (b : B) (r : nat),
        order st = Some r -> next p s st b = Ok (st, b, []))
  /\ (forall (todo hist : list Bar) (st : Strategy) (b : B) (r : nat),
        order st = Some r ->
        submissions (fst (run_bars crossover p todo hist st b)) = []).
Proof.
  split; [|split; [|split]].
  - intros data b. unfold cerebro_run. apply run_bars_total.
  - intros. apply notify_order_keeps_order.
  - intros s st b r. apply next_guard.
  - intros. eapply run_bars_after_submission. eassumption.
Qed.

Lemma at_most_one_order_per_run_witness :
  submissions
    (fst (run_bars no_cross default_params exit_run []
            (set_order (init default_params) (Some 0%nat))
            (new_broker 100000 (1 # 1000))))
  = [].
Proof.
  exact (proj2 (proj2 (proj2
           (at_most_one_order_per_run no_cross default_params)))
           exit_run [] (set_order (init default_params) (Some 0%nat))
           (new_broker 100000 (1 # 1000)) 0%nat eq_refl).
Defined.

(* ================================================================== *)
(** ** The exit rule on a whole run *)

Lemma next_from_flat (p : Params) (s : Snapshot) (st st' : Strategy)
    (b b' : SimBroker) (subs : list Submission) :
  order st = None -> position b = 0%Z ->
  next p s st b = Ok (st', b', subs) ->
  (subs = [] /\ st' = st /\ b' = b)
  \/ (exists r, subs = [(Buy, self_position_size st)] /\ order st' = Some r).
Proof.
  intros Hord Hpos. unfold next. rewrite Hord.
  destruct (check_strategy_1 p s) as [s1|e]; [|discriminate].
  destruct (check_strategy_2 p s) as [s2|e]; [|discriminate].
  simpl. rewrite Hpos. simpl.
  destruct (final_buy_signal (logic p) s1 s2) as [final logic_str].
  destruct final; intro H; injection H as <- <- <-.
  - right. eexists. split; reflexivity.
  - left. auto.
Qed.

(** X7. With the broker starting without position or order, no run
    submits a sell: the first submission of a run is made without a
    position, so it is a buy, and nothing is submitted after it. *)
Lemma exit_branch_unreachable (crossover : list Bar -> Q) (p : Params)
    (todo hist : list Bar) (st : Strategy) (b : SimBroker) (sz : Z) :
  order st = None -> position b = 0%Z -> pending b = [] ->
  ~ In (Sell, sz) (submissions (fst (run_bars crossover p todo hist st b))).
Proof.
  revert hist b.
  induction todo as [|bar rest IH]; intros hist b Hord Hpos Hpend; simpl.
  - tauto.
  - unfold on_bar. cbn [broker_next SimBrokerOps].
    unfold sim_next. rewrite Hpend. cbn [execute_all notify_all fold_left].
    set (b1 := {| cash := cash b; position := position b; pending := [];
                  next_ref := next_ref b; commission := commission b |}).
    assert (Hpos1 : position b1 = 0%Z) by exact Hpos.
    assert (Hpend1 : pending b1 = []) by reflexivity.
    destruct (snapshot crossover (bar :: hist)) as [s|].
    + destruct (next p s st b1) as [[[st' b'] subs]|e] eqn:E; [|simpl; tauto].
      destruct (next_from_flat p s st st' b1 b' subs Hord Hpos1 E)
        as [(-> & -> & ->)|(r & -> & Hr)].
      * specialize (IH (bar :: hist) b1 Hord Hpos1 Hpend1).
        destruct (run_bars crossover p rest (bar :: hist) st b1)
          as [recs res].
        exact IH.
      * pose proof (run_bars_after_submission crossover p rest (bar :: hist)
                      st' b' r Hr) as Hnil.
        destruct (run_bars crossover p rest (bar :: hist) st' b')
          as [recs res].
        unfold submissions in *. simpl in *. rewrite Hnil. simpl.
        intros [H|[]]. discriminate H.
    + specialize (IH (bar :: hist) b1 Hord Hpos1 Hpend1).
      destruct (run_bars crossover p rest (bar :: hist) st b1)
        as [recs res].
      exact IH.
Qed.

(** C1, evaluated on the feed [exit_run] with the default parameters and
    100,000 in cash, whatever the crossover indicator: the only
    submission of the run is the buy on the 60th bar; it fills on the
    61st (the position is 100 units at the end of the run); the 62nd bar
    closes below MA20 with the position open, and neither that bar nor
    the next submits a sell. *)
Theorem exit_not_submitted_after_fill (crossover : list Bar -> Q) :
  let out := cerebro_run crossover default_params exit_run
               (new_broker 100000 (1 # 1000)) in
  map submitted (fst out) = repeat [] 59 ++ [[(Buy, 100%Z)]; []; []; []]
  /\ (exists st b comm,
        snd out = Ok (st, b)
        /\ position b = 100%Z
        /\ log_messages st
           = [(day_of 59, BuySignal "S1 OR S2");
              (day_of 60, BuyExecuted 103 comm)])
  /\ (exists s,
        snapshot crossover (rev (firstn 62 exit_run)) = Some s
        /\ Py.lt (dataclose s) (ma20 s) = true).
Proof.
  split; [|split].
  - vm_compute. reflexivity.
  - do 3 eexists. vm_compute. repeat split.
  - eexists. split; vm_compute; reflexivity.
Qed.

(* ================================================================== *)
(** ** The reported total return *)


Section TotalReturnF64.

Import Floats.
Import F64.





End TotalReturnF64.

(* ================================================================== *)
(** ** The Sharpe entry of the result *)

Section SharpeF64.

Import Floats.
Import F64.

(** C8, evaluated on the analyzer values lines 206-208 can meet: a
    value of [None] is reported as [None] and a missing value as the text
    N/A, but any float is printed, the float NaN as the text nan: the
    test of line 207 lets it through. *)
Theorem sharpe_nan_is_printed :
  sharpe_metric [("sharperatio"%string, Some PrimFloat.nan)] = PyStr "nan"
  /\ (forall x rest,
        sharpe_metric (("sharperatio"%string, Some x) :: rest)
        = PyStr (format_2f x))
  /\ (forall rest,
        sharpe_metric (("sharperatio"%string, None) :: rest) = PyNone)
  /\ sharpe_metric [] = PyStr "N/A".
Proof. repeat split. Qed.

End SharpeF64.

(* ================================================================== *)
(** ** The data fetch *)

Lemma lower_ascii_not_V (c : ascii) : lower_ascii c <> "V"%char.
Proof.
  destruct c as [b0 b1 b2 b3 b4 b5 b6 b7].
  destruct b0, b1, b2, b3, b4, b5, b6, b7; vm_compute; discriminate.
Qed.

Lemma lower_not_Volume (s : string) : String.eqb (lower s) "Volume" = false.
Proof.
  apply String.eqb_neq. destruct s as [|c rest]; simpl.
  - discriminate.
  - intro H. injection H as H _. exact (lower_ascii_not_V c H).
Qed.

Lemma normalize_not_Volume (s : string) :
  String.eqb "Volume" (normalize s) = false.
Proof.
  rewrite String.eqb_sym. unfold normalize.
  destruct (String.eqb (lower s) "adj close").
  - reflexivity.
  - apply lower_not_Volume.
Qed.

Lemma labels_rename (old new : string) (cols : list (string * list Q)) :
  labels (rename old new cols)
  = map (fun l => if String.eqb l old then new else l) (labels cols).
Proof.
  unfold labels, rename. rewrite !map_map. apply map_ext.
  intros [l v]. simpl. destruct (String.eqb l old); reflexivity.
Qed.

Lemma map_id_when_absent (old new : string) (ls : list string) :
  mem old ls = false ->
  map (fun l => if String.eqb l old then new else l) ls = ls.
Proof.
  unfold mem. induction ls as [|l ls IH]; simpl; intro H.
  - reflexivity.
  - apply orb_false_iff in H. destruct H as [Hl Hls].
    rewrite String.eqb_sym in Hl. rewrite Hl. f_equal. now apply IH.
Qed.

Lemma mem_Volume_normalized (ls : list string) :
  mem "Volume" (map normalize ls) = false.
Proof.
  unfold mem. induction ls as [|l ls IH]; cbn [map existsb].
  - reflexivity.
  - now rewrite normalize_not_Volume, IH.
Qed.

Lemma filter_nil_existsb {A : Type} (f : A -> bool) (l : list A) :
  filter f l = [] <-> existsb f l = false.
Proof.
  induction l as [|x l IH]; simpl.
  - tauto.
  - destruct (f x); simpl; [split; discriminate | exact IH].
Qed.

Lemma select_nonempty (n : string) (names : list string)
    (cols : list (string * list Q)) :
  mem n (labels cols) = true ->
  select (n :: names) cols <> [].
Proof.
  unfold mem, labels, select. intro H.
  apply existsb_exists in H. destruct H as (l & Hin & Heq).
  apply in_map_iff in Hin. destruct Hin as ([l' v] & Hl & Hin).
  simpl in Hl. subst l'.
  assert (Hf : In (l, v) (filter (fun c => String.eqb (fst c) n) cols)).
  { apply filter_In. split; [exact Hin|]. simpl.
    now rewrite String.eqb_sym. }
  simpl. intro Hnil. apply app_eq_nil in Hnil. destruct Hnil as [Hnil _].
  rewrite Hnil in Hf. exact Hf.
Qed.

Section FetchFacts.

Variable crossover : list Bar -> Q.
Variable sharpe_value : list Q -> Q.
Variable returns_analysis : list Q -> list (string * Q).
Variable drawdown_analysis : list Q -> list (string * list (string * Q)).
Variable yf_download : string -> Date -> Date -> Download.

(** What [get_data] does with a frame that is not empty, in the words of
    [lacks_required]. *)
Lemma get_data_downloaded (t : string) (a b : Date) (data : DataFrame) :
  yf_download t a b = Downloaded data ->
  empty data = false ->
  (lacks_required data = true ->
   fst (get_data yf_download t a b) = empty_frame
   /\ exists missing,
        In (st_error (MissingColumns missing))
           (snd (get_data yf_download t a b)))
  /\ (lacks_required data = false ->
      exists cols,
        cols <> []
        /\ get_data yf_download t a b
           = ({| index := index data; columns := Index cols |},
              [yf_download_call t a b])).
Proof.
  intros Hdl Hne. unfold get_data. rewrite Hdl, Hne.
  set (cols1 := match columns data with
                | Index c => c
                | MultiIndex c => map (fun c0 => (fst (fst c0), snd c0)) c
                end).
  set (cols2 := map (fun c => (lower (fst c), snd c)) cols1).
  set (cols3 := if mem "adj close" (labels cols2)
                then rename "adj close" "close" cols2 else cols2).
  assert (H1 : labels cols1 = raw_labels (columns data)).
  { unfold cols1, labels, raw_labels. destruct (columns data) as [c|c].
    - reflexivity.
    - rewrite map_map. reflexivity. }
  assert (H2 : labels cols2 = map lower (raw_labels (columns data))).
  { rewrite <- H1. unfold cols2, labels. rewrite !map_map. reflexivity. }
  assert (H3 : labels cols3 = map normalize (raw_labels (columns data))).
  { transitivity
      (map (fun l => if String.eqb l "adj close" then "close"%string else l)
           (labels cols2)).
    - unfold cols3. destruct (mem "adj close" (labels cols2)) eqn:E.
      + apply labels_rename.
      + symmetry. now apply map_id_when_absent.
    - rewrite H2, map_map. reflexivity. }
  assert (H4 : mem "Volume" (labels cols3) = false)
    by (rewrite H3; apply mem_Volume_normalized).
  rewrite H4.
  assert (Hmiss :
            filter (fun c => negb (mem c (labels cols3))) required_cols = []
            <-> lacks_required data = false).
  { unfold lacks_required. rewrite <- H3. apply filter_nil_existsb. }
  destruct (filter (fun c => negb (mem c (labels cols3))) required_cols)
    as [|m ms] eqn:Hf.
  - assert (Hl : lacks_required data = false) by (now apply Hmiss).
    split; [rewrite Hl; discriminate|]. intros _.
    exists (select required_cols cols3). split; [|reflexivity].
    apply select_nonempty.
    unfold lacks_required in Hl. rewrite <- H3 in Hl.
    simpl in Hl. apply orb_false_iff in Hl. destruct Hl as [Hl _].
    now apply negb_false_iff in Hl.
  - split.
    + intros _. split; [reflexivity|].
      exists (m :: ms). simpl. auto.
    + intro Hl. apply Hmiss in Hl. discriminate Hl.
Qed.

Lemma get_data_unavailable (t : string) (a b : Date) :
  data_unavailable (yf_download t a b) = true ->
  fst (get_data yf_download t a b) = empty_frame
  /\ exists m, In (st_error m) (snd (get_data yf_download t a b)).
Proof.
  intro H. destruct (yf_download t a b) as [|data] eqn:Hdl.
  - unfold get_data. rewrite Hdl. split; [reflexivity|].
    exists FetchFailed. simpl. auto.
  - simpl in H. destruct (empty data) eqn:Hne.
    + unfold get_data. rewrite Hdl, Hne. split; [reflexivity|].
      exists (CannotDownload t). simpl. auto.
    + simpl in H.
      destruct (proj1 (get_data_downloaded t a b data Hdl Hne) H)
        as (Hfst & missing & Hin).
      split; [exact Hfst|]. eauto.
Qed.

Lemma get_data_available (t : string) (a b : Date) :
  data_unavailable (yf_download t a b) = false ->
  empty (fst (get_data yf_download t a b)) = false
  /\ snd (get_data yf_download t a b) = [yf_download_call t a b].
Proof.
  intro H. destruct (yf_download t a b) as [|data] eqn:Hdl;
    [discriminate|].
  simpl in H. apply orb_false_iff in H. destruct H as [Hne Hl].
  destruct (proj2 (get_data_downloaded t a b data Hdl Hne) Hl)
    as (cols & Hcols & ->).
  split; [|reflexivity].
  unfold empty in *. simpl. apply orb_false_iff in Hne.
  destruct Hne as [Hidx _]. rewrite Hidx. simpl.
  destruct cols; [contradiction | reflexivity].
Qed.

Lemma on_click_unavailable (ui : Sidebar) :
  date_ge (start_date ui) (end_date ui) = false ->
  data_unavailable
    (yf_download (ticker ui) (start_date ui) (end_date ui)) = true ->
  on_click crossover sharpe_value returns_analysis drawdown_analysis
    yf_download ui
  = (snd (get_data yf_download (ticker ui) (start_date ui) (end_date ui))
       ++ [st_error BacktestFailed], None).
Proof.
  intros Hd Hu. unfold on_click. rewrite Hd.
  destruct (get_data_unavailable _ _ _ Hu) as [Hfst _].
  destruct (get_data yf_download (ticker ui) (start_date ui) (end_date ui))
    as [data fx].
  simpl in *. subst data. reflexivity.
Qed.

End FetchFacts.

Lemma get_data_effects (yf_download : string -> Date -> Date -> Download)
    (t : string) (a b : Date) :
  (exists fx, snd (get_data yf_download t a b) = yf_download_call t a b :: fx)
  /\ (forall l c, ~ In (cerebro_run_call l c)
                      (snd (get_data yf_download t a b))).
Proof.
  unfold get_data. destruct (yf_download t a b) as [|data].
  - split; [eexists; reflexivity|]. simpl. intuition discriminate.
  - destruct (empty data).
    + split; [eexists; reflexivity|]. simpl. intuition discriminate.
    + match goal with
      | |- context [filter ?f required_cols] =>
          destruct (filter f required_cols)
      end; (split; [eexists; reflexivity|]); simpl; intuition discriminate.
Qed.

(** C9 as stated fails: for a symbol the provider rejects, for a range
    with no bar and for a download without a volume column, [get_data]
    returns a value, and the same one, the empty frame; the value for the
    rejected symbol is the value for the download with zero bars. *)
Lemma get_data_failure_is_empty_frame :
  fst (get_data provider_raises "NOSUCH" jan_2018 jan_2023) = empty_frame
  /\ fst (get_data provider_zero_rows "AAPL" jan_2018 jan_2023) = empty_frame
  /\ fst (get_data provider_no_volume "AAPL" jan_2018 jan_2023) = empty_frame
  /\ fst (get_data provider_raises "NOSUCH" jan_2018 jan_2023)
     = fst (get_data provider_zero_rows "AAPL" jan_2018 jan_2023).
Proof. repeat split; vm_compute; reflexivity. Qed.

(** C9, amended. When the download raises, comes back empty or lacks a
    required field after normalization, [get_data] writes an error to
    the page and returns the empty frame, and the handler then reports
    the failure and ends without running the simulation; otherwise
    [get_data] writes nothing and returns a frame that is not empty. *)
Theorem fetch_failure_aborts_run (crossover : list Bar -> Q)
    (sharpe_value : list Q -> Q)
    (returns_analysis : list Q -> list (string * Q))
    (drawdown_analysis : list Q -> list (string * list (string * Q)))
    (yf_download : string -> Date -> Date -> Download) (ui : Sidebar) :
  let r := get_data yf_download (ticker ui) (start_date ui) (end_date ui) in
  let page := on_click crossover sharpe_value returns_analysis
                drawdown_analysis yf_download ui in
  (data_unavailable
     (yf_download (ticker ui) (start_date ui) (end_date ui)) = true ->
   fst r = empty_frame
   /\ (exists m, In (st_error m) (snd r))
   /\ (date_ge (start_date ui) (end_date ui) = false ->
       page = (snd r ++ [st_error BacktestFailed], None)
       /\ forall l c, ~ In (cerebro_run_call l c) (fst page)))
  /\ (data_unavailable
        (yf_download (ticker ui) (start_date ui) (end_date ui)) = false ->
      empty (fst r) = false
      /\ snd r = [yf_download_call (ticker ui) (start_date ui) (end_date ui)]).
Proof.
  intros r page. split.
  - intro Hu.
    destruct (get_data_unavailable yf_download _ _ _ Hu) as [Hfst Herr].
    split; [exact Hfst|]. split; [exact Herr|].
    intro Hd.
    assert (Hpage : page = (snd r ++ [st_error BacktestFailed], None))
      by (now apply on_click_unavailable).
    split; [exact Hpage|].
    intros l c Hin. rewrite Hpage in Hin. simpl in Hin.
    apply in_app_or in Hin. destruct Hin as [Hin|Hin].
    + exact (proj2 (get_data_effects yf_download _ _ _) l c Hin).
    + simpl in Hin. intuition discriminate.
  - apply get_data_available.
Qed.

Lemma fetch_failure_aborts_run_witness :
  on_click no_cross zero_sharpe no_returns no_drawdown provider_raises
    ui_nosuch
  = ([yf_download_call "NOSUCH" jan_2018 jan_2023;
      st_error FetchFailed; st_error BacktestFailed], None).
Proof.
  exact (proj1
           (proj2 (proj2
              (proj1 (fetch_failure_aborts_run no_cross zero_sharpe
                        no_returns no_drawdown provider_raises ui_nosuch)
                     eq_refl))
            eq_refl)).
Defined.

(* ================================================================== *)
(** ** Validation of the inputs *)

Lemma date_ge_spec (a b : Date) :
  date_ge a b = true
  <-> (year b < year a
       \/ (year a = year b /\ month b < month a)
       \/ (year a = year b /\ month a = month b /\ day b <= day a))%Z.
Proof.
  unfold date_ge, date_lt. rewrite negb_true_iff.
  destruct (Z.ltb_spec (year a) (year b)), (Z.eqb_spec (year a) (year b)),
    (Z.ltb_spec (month a) (month b)), (Z.eqb_spec (month a) (month b)),
    (Z.ltb_spec (day a) (day b)); simpl; split; intro Hge;
    try discriminate; try reflexivity; lia.
Qed.

(** C10 as stated fails: on a feed of 63 bars, with valid dates and an
    initial cash of -5, and again with an initial cash of 0, the handler
    fetches the data and then runs the simulation with that cash, and it
    writes no error. *)
Lemma nonpositive_cash_not_validated :
  (exists rest,
     fst (on_click no_cross zero_sharpe no_returns no_drawdown
            provider_sixty_three ui_negative_cash)
     = yf_download_call "AAPL" jan_2018 jan_2023
         :: cerebro_run_call "OR" (-5) :: rest
     /\ existsb is_error rest = false)
  /\ (exists rest,
        fst (on_click no_cross zero_sharpe no_returns no_drawdown
               provider_sixty_three ui_zero_cash)
        = yf_download_call "AAPL" jan_2018 jan_2023
            :: cerebro_run_call "OR" 0 :: rest
        /\ existsb is_error rest = false).
Proof.
  split; eexists; split; vm_compute; reflexivity.
Qed.

(** C10, amended. A start date on or after the end date (in the order
    of the calendar) is refused before anything else: the handler writes
    that one error and neither fetches nor runs.  With a start date
    before the end date the handler
    begins by fetching, whatever the initial cash.  The position size is
    not an input: the strategy runs with its default, 100. *)
Theorem start_date_validated_first (crossover : list Bar -> Q)
    (sharpe_value : list Q -> Q)
    (returns_analysis : list Q -> list (string * Q))
    (drawdown_analysis : list Q -> list (string * list (string * Q)))
    (yf_download : string -> Date -> Date -> Download) (ui : Sidebar) :
  let page := on_click crossover sharpe_value returns_analysis
                drawdown_analysis yf_download ui in
  (date_ge (start_date ui) (end_date ui) = true ->
   page = ([st_error StartNotBeforeEnd], None))
  /\ (date_ge (start_date ui) (end_date ui) = true
      <-> (year (end_date ui) < year (start_date ui)
           \/ (year (start_date ui) = year (end_date ui)
               /\ month (end_date ui) < month (start_date ui))
           \/ (year (start_date ui) = year (end_date ui)
               /\ month (start_date ui) = month (end_date ui)
               /\ day (end_date ui) <= day (start_date ui)))%Z)
  /\ (date_ge (start_date ui) (end_date ui) = false ->
      exists fx,
        fst page
        = yf_download_call (ticker ui) (start_date ui) (end_date ui) :: fx)
  /\ (forall l, position_size (with_logic default_params l) = 100%Z).
Proof.
  intro page. split; [|split; [apply date_ge_spec | split]].
  - intro H. unfold page, on_click. now rewrite H.
  - intro H. unfold page, on_click. rewrite H.
    destruct (get_data_effects yf_download (ticker ui) (start_date ui)
                (end_date ui)) as [(fx & Hfx) _].
    destruct (get_data yf_download (ticker ui) (start_date ui) (end_date ui))
      as [data effects].
    simpl in Hfx. subst effects.
    destruct (negb (empty data)).
    + destruct (run_backtest _ _ _ _ _ _ _); simpl; eexists; reflexivity.
    + simpl. eexists. reflexivity.
  - reflexivity.
Qed.

Lemma start_date_validated_first_witness :
  on_click no_cross zero_sharpe no_returns no_drawdown provider_two_days
    ui_reversed_dates
  = ([st_error StartNotBeforeEnd], None).
Proof.
  exact (proj1 (start_date_validated_first no_cross zero_sharpe no_returns
                  no_drawdown provider_two_days ui_reversed_dates)
               eq_refl).
Defined.

(* ================================================================== *)
(** ** More on the rule sets *)

Lemma check_strategy_1_true_inv (p : Params) (s : Snapshot) :
  check_strategy_1 p s = Ok true <->
  (60 <= datalen s)%nat
  /\ ma60 s < ma20 s /\ ma20 s < dataclose s
  /\ ~ Qmin (ma5 s) (ma20 s) == 0
  /\ Qmax (ma5 s) (ma20 s) / Qmin (ma5 s) (ma20 s) < 1 + consolidation_pct p
  /\ inject_Z (volume_limit_A p * 1000) < datavolume s.
Proof.
  unfold check_strategy_1.
  destruct (datalen s <? 60)%nat eqn:Hlen.
  - apply Nat.ltb_lt in Hlen. split; [discriminate | intros (H & _); lia].
  - apply Nat.ltb_ge in Hlen. rewrite bind_Ok_iff.
    rewrite <- max_is_Qmax, <- min_is_Qmin. split.
    + intros (ratio & Hdiv & Hres).
      apply truediv_Ok_iff in Hdiv. destruct Hdiv as [Hnz ->].
      injection Hres as Hres.
      rewrite !andb_true_iff, !lt_true_iff, gt_true_iff in Hres.
      tauto.
    + intros (_ & H1a & H1b & Hnz & H2 & H3).
      eexists. split.
      * apply truediv_Ok_iff. split; [exact Hnz | reflexivity].
      * f_equal. rewrite !andb_true_iff, !lt_true_iff, gt_true_iff. tauto.
Qed.

Lemma check_strategy_2_true_inv (p : Params) (s : Snapshot) :
  check_strategy_2 p s = Ok true <->
  (20 <= datalen s)%nat
  /\ ma20 s < ma10 s /\ ma10 s < dataclose s
  /\ inject_Z (volume_limit_B p * 1000) < datavolume s
  /\ dataopen s < dataclose s
  /\ ~ dataopen s == 0
  /\ k_bar_pct p < (dataclose s - dataopen s) / dataopen s
  /\ 0 < macd_cross s.
Proof.
  unfold check_strategy_2.
  destruct (datalen s <? 20)%nat eqn:Hlen.
  - apply Nat.ltb_lt in Hlen. split; [discriminate | intros (H & _); lia].
  - apply Nat.ltb_ge in Hlen. rewrite bind_Ok_iff. split.
    + intros (cond_3 & H3 & Hres).
      injection Hres as Hres.
      rewrite !andb_true_iff, !lt_true_iff, !gt_true_iff in Hres.
      destruct Hres as [[[[H1a H1b] H2] ->] H4].
      destruct (Py.gt (dataclose s) (dataopen s)) eqn:Hup;
        [|discriminate H3].
      apply gt_true_iff in Hup.
      apply bind_Ok_iff in H3. destruct H3 as (gain & Hdiv & Hgain).
      apply truediv_Ok_iff in Hdiv. destruct Hdiv as [Hnz ->].
      injection Hgain as Hgain. apply gt_true_iff in Hgain.
      tauto.
    + intros (_ & H1a & H1b & H2 & Hup & Hnz & Hgain & H4).
      exists true. split.
      * apply gt_true_iff in Hup. rewrite Hup.
        apply bind_Ok_iff. eexists. split.
        -- apply truediv_Ok_iff. split; [exact Hnz | reflexivity].
        -- f_equal. now apply gt_true_iff.
      * f_equal. rewrite !andb_true_iff, !lt_true_iff, !gt_true_iff. tauto.
Qed.

(** X1. A bar on which either rule set answers [True] closes above MA20,
    so the exit test [close < MA20] of [next] is false on it. *)
Theorem entry_excludes_exit (p : Params) (s : Snapshot) :
  check_strategy_1 p s = Ok true \/ check_strategy_2 p s = Ok true ->
  ma20 s < dataclose s /\ Py.lt (dataclose s) (ma20 s) = false.
Proof.
  intro H.
  assert (Hlt : ma20 s < dataclose s).
  { destruct H as [H|H].
    - apply check_strategy_1_true_inv in H. tauto.
    - apply check_strategy_2_true_inv in H.
      destruct H as (_ & Ha & Hb & _). eapply Qlt_trans; eassumption. }
  split; [exact Hlt|]. apply lt_false_iff. now apply Qlt_le_weak.
Qed.

Lemma entry_excludes_exit_witness :
  ma20 breakout_bar < dataclose breakout_bar
  /\ Py.lt (dataclose breakout_bar) (ma20 breakout_bar) = false.
Proof.
  apply (entry_excludes_exit default_params breakout_bar).
  right. reflexivity.
Defined.

(* ================================================================== *)
(** ** More on [next] *)

Section NextFacts.

Context {B : Type} {ops : BrokerOps B}.

(** X4. What a call of [next] that returns can have done: nothing at
    all (strategy and broker unchanged); or, with no order stored and no
    position, one buy; or, with no order stored and a position, one sell
    on a close below MA20.  So it never buys while a position is open and
    never sells without one; the order is of size [self.position_size],
    is stored in [self.order], and one signal entry dated with the bar is
    logged. *)
Theorem next_outcome (p : Params) (s : Snapshot) (st st' : Strategy)
    (b b' : B) (subs : list Submission) :
  next p s st b = Ok (st', b', subs) ->
  (subs = [] /\ st' = st /\ b' = b)
  \/ (order st = None /\ getposition b = 0%Z
      /\ subs = [(Buy, self_position_size st)]
      /\ (exists logic_str,
            st' = set_order (log (BuySignal logic_str) (datadate s) st)
                    (Some (snd (buy b (self_position_size st)))))
      /\ b' = fst (buy b (self_position_size st)))
  \/ (order st = None /\ getposition b <> 0%Z
      /\ dataclose s < ma20 s
      /\ subs = [(Sell, self_position_size st)]
      /\ st' = set_order (log ExitSignal (datadate s) st)
                 (Some (snd (sell b (self_position_size st))))
      /\ b' = fst (sell b (self_position_size st))).
Proof.
  unfold next. destruct (order st) as [r|] eqn:Hord.
  - intro H. injection H as <- <- <-. left. auto.
  - destruct (check_strategy_1 p s) as [s1|e]; [|discriminate].
    destruct (check_strategy_2 p s) as [s2|e]; [|discriminate].
    simpl.
    destruct (final_buy_signal (logic p) s1 s2) as [final logic_str].
    destruct (getposition b =? 0)%Z eqn:Hpos.
    + apply Z.eqb_eq in Hpos. destruct final.
      * cbn [log self_position_size].
        destruct (buy b (self_position_size st)) as [b1 r] eqn:Hbuy.
        intro H. injection H as <- <- <-.
        right. left. repeat split; try assumption. eauto.
      * intro H. injection H as <- <- <-. left. auto.
    + apply Z.eqb_neq in Hpos.
      destruct (Py.lt (dataclose s) (ma20 s)) eqn:Hexit.
      * apply lt_true_iff in Hexit. cbn [log self_position_size].
        destruct (sell b (self_position_size st)) as [b1 r] eqn:Hsell.
        intro H. injection H as <- <- <-.
        right. right. repeat split; assumption.
      * intro H. injection H as <- <- <-. left. auto.
Qed.

(** X5. [next] raises exactly when no order is stored and a rule set
    divides by zero: 60 bars with min(MA5, MA20) = 0, or 20 bars with a
    close above a zero open.  The position plays no part: both rule sets
    are evaluated before it is looked at, so the exit of an open position
    can be lost to a zero divisor in an entry rule. *)
Theorem next_raises_iff (p : Params) (s : Snapshot) (st : Strategy) (b : B)
    (e : exn) :
  next p s st b = Raise e <->
  order st = None
  /\ (((60 <= datalen s)%nat /\ Qmin (ma5 s) (ma20 s) == 0)
      \/ ((20 <= datalen s)%nat /\ dataopen s < dataclose s
          /\ dataopen s == 0)).
Proof.
  rewrite <- (check_strategy_1_raises p s e).
  rewrite <- (check_strategy_2_raises p s e).
  unfold next. destruct (order st) as [r|].
  - split; [discriminate | intros [H _]; discriminate].
  - destruct (check_strategy_1 p s) as [s1|e1].
    + destruct (check_strategy_2 p s) as [s2|e2].
      * simpl.
        destruct (final_buy_signal (logic p) s1 s2) as [final logic_str].
        destruct (getposition b =? 0)%Z.
        -- destruct final; [destruct (buy b _)|];
             (split; [discriminate | intros [_ [H|H]]; discriminate]).
        -- destruct (Py.lt (dataclose s) (ma20 s)); [destruct (sell b _)|];
             (split; [discriminate | intros [_ [H|H]]; discriminate]).
      * simpl. destruct e, e2. tauto.
    + simpl. destruct e, e1. tauto.
Qed.

(** X6. With no order stored and a position open, what [next] submits
    depends on the exit test alone: a sell of size [self.position_size]
    when the bar closes below MA20, nothing otherwise, whatever the two
    rule sets answered and whatever [logic] is. *)
Theorem exit_rule_in_position (p : Params) (s : Snapshot) (st : Strategy)
    (b : B) (s1 s2 : bool) :
  order st = None -> getposition b <> 0%Z ->
  check_strategy_1 p s = Ok s1 -> check_strategy_2 p s = Ok s2 ->
  submitted_by (next p s st b)
  = if Py.lt (dataclose s) (ma20 s)
    then [(Sell, self_position_size st)] else [].
Proof.
  intros Hord Hpos H1 H2. unfold next. rewrite Hord, H1, H2. simpl.
  apply Z.eqb_neq in Hpos. rewrite Hpos.
  destruct (final_buy_signal (logic p) s1 s2) as [final logic_str].
  destruct (Py.lt (dataclose s) (ma20 s)); [|reflexivity].
  destruct (sell b (self_position_size st)) as [b1 r]. reflexivity.
Qed.

Lemma next_logic_fallback (p : Params) (l : string) (s : Snapshot)
    (st : Strategy) (b : B) :
  l <> "AND"%string ->
  next (with_logic p l) s st b = next (with_logic p "OR") s st b.
Proof.
  intro Hl. apply String.eqb_neq in Hl. unfold next.
  change (check_strategy_1 (with_logic p l) s) with (check_strategy_1 p s).
  change (check_strategy_2 (with_logic p l) s) with (check_strategy_2 p s).
  change (check_strategy_1 (with_logic p "OR") s)
    with (check_strategy_1 p s).
  change (check_strategy_2 (with_logic p "OR") s)
    with (check_strategy_2 p s).
  change (logic (with_logic p l)) with l.
  change (logic (with_logic p "OR")) with "OR"%string.
  unfold final_buy_signal. rewrite Hl. reflexivity.
Qed.

(** X11. On the same bar and from the same state, every order [next]
    submits with [logic = 'AND'] is also submitted with [logic = 'OR']. *)
Theorem and_mode_orders_in_or_mode (p : Params) (s : Snapshot)
    (st : Strategy) (b : B) (sub : Submission) :
  In sub (submitted_by (next (with_logic p "AND") s st b)) ->
  In sub (submitted_by (next (with_logic p "OR") s st b)).
Proof.
  unfold next.
  change (check_strategy_1 (with_logic p "AND") s)
    with (check_strategy_1 p s).
  change (check_strategy_2 (with_logic p "AND") s)
    with (check_strategy_2 p s).
  change (check_strategy_1 (with_logic p "OR") s)
    with (check_strategy_1 p s).
  change (check_strategy_2 (with_logic p "OR") s)
    with (check_strategy_2 p s).
  destruct (order st) as [r|]; [tauto|].
  destruct (check_strategy_1 p s) as [s1|e1]; [|tauto].
  destruct (check_strategy_2 p s) as [s2|e2]; [|tauto].
  simpl.
  destruct (getposition b =? 0)%Z.
  - destruct s1, s2; simpl; try tauto;
      destruct (buy b (self_position_size st)); simpl; tauto.
  - destruct (Py.lt (dataclose s) (ma20 s)); [|tauto].
    destruct (sell b (self_position_size st)); simpl; tauto.
Qed.

End NextFacts.

Lemma next_outcome_witness :
  order (init default_params) = None
  /\ getposition (new_broker 100000 (1 # 1000)) = 0%Z.
Proof.
  destruct (next_outcome (ops := SimBrokerOps)
              default_params breakout_bar (init default_params)
              (set_order
                 (log (BuySignal "S1 OR S2") (datadate breakout_bar)
                    (init default_params))
                 (Some 0%nat))
              (new_broker 100000 (1 # 1000))
              (fst (new_order (new_broker 100000 (1 # 1000)) Buy 100))
              [(Buy, 100%Z)] eq_refl)
    as [(H & _)|[(Hord & Hpos & _)|(_ & _ & _ & H & _)]].
  - discriminate H.
  - split; assumption.
  - discriminate H.
Defined.

Lemma exit_rule_in_position_witness :
  submitted_by (next default_params breakdown_bar (init default_params)
                     holding_broker)
  = [(Sell, 100%Z)].
Proof.
  apply (exit_rule_in_position default_params breakdown_bar
           (init default_params) holding_broker false false).
  - reflexivity.
  - discriminate.
  - reflexivity.
  - reflexivity.
Defined.

Lemma and_mode_orders_in_or_mode_witness :
  In (Buy, 100%Z)
     (submitted_by (next (with_logic default_params "OR") strong_bar
                         (init default_params)
                         (new_broker 100000 (1 # 1000)))).
Proof.
  apply (and_mode_orders_in_or_mode default_params strong_bar
           (init default_params) (new_broker 100000 (1 # 1000))).
  left. reflexivity.
Defined.

(* ================================================================== *)
(** ** More on whole runs *)

Lemma signals_app (l1 l2 : list (Date * LogText)) :
  signals (l1 ++ l2) = signals l1 ++ signals l2.
Proof. unfold signals. apply filter_app. Qed.

Lemma notify_order_effect (dt : Date) (o : Order) (st : Strategy) :
  self_position_size (notify_order dt o st) = self_position_size st
  /\ exists l, log_messages (notify_order dt o st) = log_messages st ++ l
               /\ signals l = [].
Proof.
  unfold notify_order.
  destruct (status o); try destruct (side o); simpl;
    (split; [reflexivity|]);
    solve [ exists []; split; [symmetry; apply app_nil_r | reflexivity]
          | eexists; split; [reflexivity | reflexivity] ].
Qed.

Lemma notify_all_effect (dt : Date) (notes : list Order) (st : Strategy) :
  self_position_size (notify_all dt notes st) = self_position_size st
  /\ exists l, log_messages (notify_all dt notes st) = log_messages st ++ l
               /\ signals l = [].
Proof.
  unfold notify_all. revert st.
  induction notes as [|o notes IH]; intro st; cbn [fold_left].
  - split; [reflexivity|]. exists []. split;
      [symmetry; apply app_nil_r | reflexivity].
  - destruct (IH (notify_order dt o st)) as (Hsz & l2 & Hl2 & Hs2).
    destruct (notify_order_effect dt o st) as (Hsz1 & l1 & Hl1 & Hs1).
    split; [congruence|].
    exists (l1 ++ l2). split.
    + rewrite Hl2, Hl1. symmetry. apply app_assoc.
    + rewrite signals_app, Hs1, Hs2. reflexivity.
Qed.

Section RunFacts.

Context {B : Type} {ops : BrokerOps B}.
Variable crossover : list Bar -> Q.

Lemma next_effect (p : Params) (s : Snapshot) (st st' : Strategy)
    (b b' : B) (subs : list Submission) :
  next p s st b = Ok (st', b', subs) ->
  self_position_size st' = self_position_size st
  /\ Forall (fun sub => snd sub = self_position_size st) subs
  /\ exists l, log_messages st' = log_messages st ++ l
               /\ length (signals l) = length subs.
Proof.
  unfold next. destruct (order st) as [r|].
  - intro H. injection H as <- <- <-.
    split; [reflexivity|]. split; [constructor|].
    exists []. split; [symmetry; apply app_nil_r | reflexivity].
  - destruct (check_strategy_1 p s) as [s1|e]; [|discriminate].
    destruct (check_strategy_2 p s) as [s2|e]; [|discriminate].
    simpl.
    destruct (final_buy_signal (logic p) s1 s2) as [final logic_str].
    destruct (getposition b =? 0)%Z;
      [destruct final; [destruct (buy b _)|]
      |destruct (Py.lt (dataclose s) (ma20 s)); [destruct (sell b _)|]];
      intro H; injection H as <- <- <-;
      (split; [reflexivity|]); (split; [repeat constructor|]);
      solve [ exists []; split; [symmetry; apply app_nil_r | reflexivity]
            | eexists; split; [reflexivity | reflexivity] ].
Qed.

Lemma on_bar_effect (p : Params) (hist : list Bar) (bar : Bar)
    (st st' : Strategy) (b b' : B) (subs : list Submission) :
  on_bar crossover p hist bar st b = Ok (st', b', subs) ->
  self_position_size st' = self_position_size st
  /\ Forall (fun sub => snd sub = self_position_size st) subs
  /\ exists l, log_messages st' = log_messages st ++ l
               /\ length (signals l) = length subs.
Proof.
  unfold on_bar. destruct (broker_next b bar) as [b1 notes].
  destruct (notify_all_effect (date bar) notes st) as (Hsz & l1 & Hl1 & Hs1).
  destruct (snapshot crossover (bar :: hist)) as [s|].
  - intro H. apply next_effect in H.
    destruct H as (Hsz2 & Hsubs & l2 & Hl2 & Hs2).
    split; [congruence|]. split; [now rewrite <- Hsz|].
    exists (l1 ++ l2). split.
    + rewrite Hl2, Hl1. symmetry. apply app_assoc.
    + rewrite signals_app, Hs1. exact Hs2.
  - intro H. injection H as <- <- <-.
    split; [exact Hsz|]. split; [constructor|].
    exists l1. split; [exact Hl1 | now rewrite Hs1].
Qed.

(** X8. The log only grows during a run, and [next] accounts for every
    order in it: when a run ends without an exception, its log is the log
    it started with followed by new entries, and the signal entries
    among the new ones are as many as the orders submitted, hence at
    most one. *)
Theorem run_log_signals (p : Params) (todo hist : list Bar)
    (st st' : Strategy) (b b' : B) (recs : list BarRecord) :
  run_bars crossover p todo hist st b = (recs, Ok (st', b')) ->
  exists added,
    log_messages st' = log_messages st ++ added
    /\ length (signals added) = length (submissions recs)
    /\ (length (signals added) <= 1)%nat.
Proof.
  intro Hrun.
  assert (Hone : (length (submissions recs) <= 1)%nat).
  { pose proof (run_bars_total crossover p todo hist st b) as H.
    now rewrite Hrun in H. }
  cut (exists added,
         log_messages st' = log_messages st ++ added
         /\ length (signals added) = length (submissions recs)).
  { intros (added & H1 & H2). exists added. rewrite H2. auto. }
  clear Hone. revert hist st b recs Hrun.
  induction todo as [|bar rest IH]; intros hist st b recs Hrun;
    cbn [run_bars] in Hrun.
  - injection Hrun as <- <- <-. exists []. split;
      [symmetry; apply app_nil_r | reflexivity].
  - destruct (on_bar crossover p hist bar st b) as [[[st2 b2] subs]|e] eqn:E;
      [|discriminate].
    destruct (run_bars crossover p rest (bar :: hist) st2 b2)
      as [recs' res] eqn:Hrest.
    injection Hrun as <- ->.
    destruct (on_bar_effect p hist bar st st2 b b2 subs E)
      as (_ & _ & l1 & Hl1 & Hs1).
    destruct (IH (bar :: hist) st2 b2 recs' Hrest) as (l2 & Hl2 & Hs2).
    exists (l1 ++ l2). split.
    + rewrite Hl2, Hl1. symmetry. apply app_assoc.
    + rewrite signals_app. unfold submissions in *. cbn [map concat submitted].
      rewrite !length_app. congruence.
Qed.

Lemma run_bars_sizes (p : Params) (todo hist : list Bar)
    (st : Strategy) (b : B) :
  Forall (fun sub => snd sub = self_position_size st)
         (submissions (fst (run_bars crossover p todo hist st b))).
Proof.
  revert hist st b.
  induction todo as [|bar rest IH]; intros hist st b; cbn [run_bars].
  - constructor.
  - destruct (on_bar crossover p hist bar st b) as [[[st2 b2] subs]|e] eqn:E;
      [|constructor].
    destruct (on_bar_effect p hist bar st st2 b b2 subs E)
      as (Hsz & Hsubs & _).
    pose proof (IH (bar :: hist) st2 b2) as IH'. rewrite Hsz in IH'.
    destruct (run_bars crossover p rest (bar :: hist) st2 b2) as [recs res].
    unfold submissions in *. cbn [fst map concat submitted] in *.
    apply Forall_app. split; assumption.
Qed.

(** X9. Every order submitted during a run, buy or sell, has the size
    configured in [position_size]. *)
Theorem submissions_have_configured_size (p : Params) (data : list Bar)
    (b : B) :
  Forall (fun sub => snd sub = position_size p)
         (submissions (fst (cerebro_run crossover p data b))).
Proof.
  unfold cerebro_run.
  exact (run_bars_sizes p data [] (init p) b).
Qed.

Lemma run_bars_logic_fallback (p : Params) (l : string)
    (todo hist : list Bar) (st : Strategy) (b : B) :
  l <> "AND"%string ->
  run_bars crossover (with_logic p l) todo hist st b
  = run_bars crossover (with_logic p "OR") todo hist st b.
Proof.
  intro Hl. revert hist st b.
  induction todo as [|bar rest IH]; intros hist st b; cbn [run_bars].
  - reflexivity.
  - assert (Hbar : on_bar crossover (with_logic p l) hist bar st b
                   = on_bar crossover (with_logic p "OR") hist bar st b).
    { unfold on_bar. destruct (broker_next b bar) as [b1 notes].
      destruct (snapshot crossover (bar :: hist)) as [s|]; [|reflexivity].
      now apply next_logic_fallback. }
    rewrite Hbar.
    destruct (on_bar crossover (with_logic p "OR") hist bar st b)
      as [[[st2 b2] subs]|e]; [|reflexivity].
    now rewrite IH.
Qed.

End RunFacts.

Lemma run_log_signals_witness :
  exists recs st' b',
    run_bars no_cross default_params exit_run [] (init default_params)
      (new_broker 100000 (1 # 1000)) = (recs, Ok (st', b'))
    /\ exists added,
         log_messages st' = log_messages (init default_params) ++ added
         /\ length (signals added) = length (submissions recs)
         /\ (length (signals added) <= 1)%nat.
Proof.
  destruct (run_bars no_cross default_params exit_run []
              (init default_params) (new_broker 100000 (1 # 1000)))
    as [recs [[st' b']|e]] eqn:E.
  - exists recs, st', b'. split; [reflexivity|].
    exact (run_log_signals no_cross default_params exit_run []
             (init default_params) st' (new_broker 100000 (1 # 1000)) b'
             recs E).
  - exfalso. vm_compute in E. discriminate E.
Defined.

(** X10. Any [logic] other than the exact text ['AND'] runs as ['OR']:
    [run_backtest] returns the same result for it as for ['OR']. *)
Theorem unknown_logic_runs_as_or (crossover : list Bar -> Q)
    (sharpe_value : list Q -> Q)
    (returns_analysis : list Q -> list (string * Q))
    (drawdown_analysis : list Q -> list (string * list (string * Q)))
    (data : list Bar) (l : string) (initial_cash : Q) :
  l <> "AND"%string ->
  run_backtest crossover sharpe_value returns_analysis drawdown_analysis
    data l initial_cash
  = run_backtest crossover sharpe_value returns_analysis drawdown_analysis
      data "OR" initial_cash.
Proof.
  intro Hl. unfold run_backtest, cerebro_run.
  change (init (with_logic default_params l))
    with (init (with_logic default_params "OR")).
  now rewrite (run_bars_logic_fallback crossover default_params l data []
                 _ _ Hl).
Qed.

Lemma unknown_logic_runs_as_or_witness :
  run_backtest no_cross zero_sharpe no_returns no_drawdown
    exit_run "and" 100000
  = run_backtest no_cross zero_sharpe no_returns no_drawdown
      exit_run "OR" 100000.
Proof.
  apply unknown_logic_runs_as_or. discriminate.
Defined.

Lemma exit_branch_unreachable_witness :
  position (new_broker 100000 (1 # 1000)) = 0%Z
  /\ ~ In (Sell, 100%Z)
         (submissions
            (fst (run_bars no_cross default_params exit_run []
                    (init default_params)
                    (new_broker 100000 (1 # 1000))))).
Proof.
  split; [reflexivity|].
  apply exit_branch_unreachable; reflexivity.
Defined.

(* ================================================================== *)
(** ** More on the data fetch *)

Lemma labels_normalized (df : DataFrame) :
  labels (normalized df) = map normalize (raw_labels (columns df)).
Proof.
  unfold labels, normalized, level0, raw_labels.
  destruct (columns df) as [c|c]; rewrite !map_map; reflexivity.
Qed.

Lemma in_select (names : list string) (cols : list (string * list Q))
    (c : string * list Q) :
  In c (select names cols) <-> In (fst c) names /\ In c cols.
Proof.
  unfold select. rewrite in_flat_map. split.
  - intros (n & Hn & Hc). apply filter_In in Hc. destruct Hc as [Hc He].
    apply String.eqb_eq in He. subst n. auto.
  - intros [Hn Hc]. exists (fst c). split; [exact Hn|].
    apply filter_In. split; [exact Hc | apply String.eqb_refl].
Qed.

Lemma filter_absent (n : string) (cols : list (string * list Q)) :
  ~ In n (labels cols) ->
  filter (fun c => String.eqb (fst c) n) cols = [].
Proof.
  unfold labels. induction cols as [|[l v] cols IH]; simpl; intro H.
  - reflexivity.
  - destruct (String.eqb_spec l n) as [->|Hne].
    + exfalso. apply H. now left.
    + apply IH. intro Hin. apply H. now right.
Qed.

Lemma labels_filter_unique (n : string) (cols : list (string * list Q)) :
  NoDup (labels cols) -> In n (labels cols) ->
  labels (filter (fun c => String.eqb (fst c) n) cols) = [n].
Proof.
  unfold labels. induction cols as [|[l v] cols IH]; simpl; intros Hnd Hin.
  - contradiction.
  - inversion Hnd as [|? ? Hnotin Hnd']; subst.
    destruct (String.eqb_spec l n) as [->|Hne].
    + simpl. f_equal.
      change (map fst (filter (fun c => String.eqb (fst c) n) cols))
        with (labels (filter (fun c => String.eqb (fst c) n) cols)).
      now rewrite filter_absent.
    + apply IH; [exact Hnd'|]. destruct Hin as [Hl|Hin]; [contradiction|].
      exact Hin.
Qed.

Lemma labels_select (names : list string) (cols : list (string * list Q)) :
  NoDup (labels cols) ->
  (forall n, In n names -> In n (labels cols)) ->
  labels (select names cols) = names.
Proof.
  intros Hnd. unfold select.
  induction names as [|n names IH]; intro Hall; simpl.
  - reflexivity.
  - assert (Hn : In n (labels cols)) by (apply Hall; now left).
    pose proof (labels_filter_unique n cols Hnd Hn) as Hf.
    unfold labels in *. rewrite map_app, Hf.
    simpl. f_equal. apply IH. intros m Hm. apply Hall. now right.
Qed.

Lemma flat_map_ext_in {A C : Type} (f g : A -> list C) (l : list A) :
  (forall x, In x l -> f x = g x) -> flat_map f l = flat_map g l.
Proof.
  induction l as [|x l IH]; simpl; intro H.
  - reflexivity.
  - rewrite (H x) by now left. f_equal. apply IH.
    intros y Hy. apply H. now right.
Qed.

Lemma select_self (cols : list (string * list Q)) :
  NoDup (labels cols) -> select (labels cols) cols = cols.
Proof.
  unfold select, labels.
  induction cols as [|[l v] cols IH]; simpl; intro Hnd.
  - reflexivity.
  - inversion Hnd as [|? ? Hnotin Hnd']; subst.
    rewrite String.eqb_refl. simpl.
    rewrite (filter_absent l cols Hnotin). simpl. f_equal.
    rewrite <- (IH Hnd') at 2.
    apply flat_map_ext_in. intros n Hn.
    destruct (String.eqb_spec l n) as [->|Hne]; [contradiction | reflexivity].
Qed.

Lemma rename_adj_close (cols : list (string * list Q)) :
  (if mem "adj close" (labels (map (fun c => (lower (fst c), snd c)) cols))
   then rename "adj close" "close"
          (map (fun c => (lower (fst c), snd c)) cols)
   else map (fun c => (lower (fst c), snd c)) cols)
  = map (fun c => (normalize (fst c), snd c)) cols.
Proof.
  assert (Hren : rename "adj close" "close"
                   (map (fun c => (lower (fst c), snd c)) cols)
                 = map (fun c => (normalize (fst c), snd c)) cols).
  { unfold rename. rewrite map_map. apply map_ext. intros [l v].
    unfold normalize. simpl. destruct (String.eqb (lower l) "adj close");
      reflexivity. }
  destruct (mem "adj close"
              (labels (map (fun c => (lower (fst c), snd c)) cols))) eqn:E.
  - exact Hren.
  - rewrite <- Hren. unfold rename. symmetry.
    rewrite <- (map_id (map (fun c => (lower (fst c), snd c)) cols)) at 2.
    apply map_ext_in. intros [l v] Hin. simpl.
    destruct (String.eqb_spec l "adj close") as [->|Hne]; [|reflexivity].
    exfalso. unfold mem in E.
    assert (Hex : existsb (String.eqb "adj close")
                    (labels (map (fun c => (lower (fst c), snd c)) cols))
                  = true).
    { apply existsb_exists. exists "adj close"%string. split.
      - unfold labels. apply in_map_iff. eexists. split; [|exact Hin].
        reflexivity.
      - reflexivity. }
    congruence.
Qed.

Section FetchShape.

Variable yf_download : string -> Date -> Date -> Download.

(** The frame [get_data] returns for a usable download, in closed form. *)
Lemma get_data_closed_form (t : string) (a b : Date) (data : DataFrame) :
  yf_download t a b = Downloaded data ->
  data_unavailable (Downloaded data) = false ->
  get_data yf_download t a b
  = ({| index := index data;
        columns := Index (select required_cols (normalized data)) |},
     [yf_download_call t a b]).
Proof.
  intros Hdl Hu. simpl in Hu. apply orb_false_iff in Hu.
  destruct Hu as [Hne Hl].
  unfold get_data. rewrite Hdl, Hne.
  change (match columns data with
          | Index c => c
          | MultiIndex c => map (fun c0 => (fst (fst c0), snd c0)) c
          end) with (level0 (columns data)).
  rewrite rename_adj_close. fold (normalized data).
  assert (Hvol : mem "Volume" (labels (normalized data)) = false)
    by (rewrite labels_normalized; apply mem_Volume_normalized).
  rewrite Hvol.
  assert (Hmiss :
            filter (fun c => negb (mem c (labels (normalized data))))
                   required_cols = []).
  { apply filter_nil_existsb. rewrite labels_normalized. exact Hl. }
  rewrite Hmiss. reflexivity.
Qed.

(** X13. For a usable download [get_data] keeps the rows as they are and
    returns plain columns: each is named by one of the five required
    fields and carries, untouched, the values of a downloaded column
    whose normalized label is that name; every required field is there;
    and when no two downloaded columns normalize to the same label, the
    columns are exactly open, high, low, close, volume, in this order. *)
Theorem get_data_success_shape (t : string) (a b : Date)
    (data : DataFrame) :
  yf_download t a b = Downloaded data ->
  data_unavailable (Downloaded data) = false ->
  exists cols,
    fst (get_data yf_download t a b)
    = {| index := index data; columns := Index cols |}
    /\ (forall name values,
          In (name, values) cols <->
          In name required_cols
          /\ exists raw, In (raw, values) (level0 (columns data))
                         /\ normalize raw = name)
    /\ (forall name, In name required_cols -> In name (labels cols))
    /\ (NoDup (map normalize (raw_labels (columns data))) ->
        labels cols = required_cols).
Proof.
  intros Hdl Hu.
  rewrite (get_data_closed_form t a b data Hdl Hu).
  exists (select required_cols (normalized data)).
  assert (Hall : forall n, In n required_cols ->
                           In n (labels (normalized data))).
  { simpl in Hu. apply orb_false_iff in Hu. destruct Hu as [_ Hl].
    unfold lacks_required in Hl. rewrite <- labels_normalized in Hl.
    intros n Hn.
    destruct (mem n (labels (normalized data))) eqn:E.
    - unfold mem in E. apply existsb_exists in E.
      destruct E as (x & Hx & He). apply String.eqb_eq in He. now subst x.
    - exfalso.
      assert (Hex : existsb (fun r => negb (mem r (labels (normalized data))))
                      required_cols = true).
      { apply existsb_exists. exists n. split; [exact Hn|]. now rewrite E. }
      congruence. }
  split; [reflexivity|]. split; [|split].
  - intros name values. rewrite in_select. unfold normalized. simpl fst.
    rewrite in_map_iff. split.
    + intros (Hn & [raw v] & Heq & Hin). simpl in Heq.
      injection Heq as Hname Hv. subst v.
      split; [exact Hn|]. exists raw. auto.
    + intros (Hn & raw & Hin & Hname).
      split; [exact Hn|]. exists (raw, values). simpl. split; [|exact Hin].
      now rewrite Hname.
  - intros name Hn. unfold labels. apply in_map_iff.
    pose proof (Hall name Hn) as Hin. unfold labels in Hin.
    apply in_map_iff in Hin. destruct Hin as ([l v] & Hl & Hin).
    simpl in Hl. subst l.
    exists (name, v). split; [reflexivity|].
    apply in_select. split; [exact Hn | exact Hin].
  - intro Hnd. apply labels_select; [|exact Hall].
    now rewrite labels_normalized.
Qed.

End FetchShape.

Lemma required_present (data : DataFrame) (n : string) :
  data_unavailable (Downloaded data) = false ->
  In n required_cols -> In n (labels (normalized data)).
Proof.
  intros Hu Hn. simpl in Hu. apply orb_false_iff in Hu.
  destruct Hu as [_ Hl].
  unfold lacks_required in Hl. rewrite <- labels_normalized in Hl.
  destruct (mem n (labels (normalized data))) eqn:E.
  - unfold mem in E. apply existsb_exists in E.
    destruct E as (x & Hx & He). apply String.eqb_eq in He. now subst x.
  - exfalso.
    assert (Hex : existsb (fun r => negb (mem r (labels (normalized data))))
                    required_cols = true).
    { apply existsb_exists. exists n. split; [exact Hn|]. now rewrite E. }
    congruence.
Qed.

Lemma normalize_required (n : string) :
  In n required_cols -> normalize n = n.
Proof.
  intro H. simpl in H.
  destruct H as [<-|[<-|[<-|[<-|[<-|[]]]]]]; reflexivity.
Qed.

(** X14. Fetching is idempotent on clean data: when no two downloaded
    columns normalize to the same label, a provider that hands back the
    frame [get_data] returned gets that same frame from [get_data]. *)
Theorem get_data_idempotent
    (yf_download yf_again : string -> Date -> Date -> Download)
    (t t' : string) (a b a' b' : Date) (data : DataFrame) :
  yf_download t a b = Downloaded data ->
  data_unavailable (Downloaded data) = false ->
  NoDup (map normalize (raw_labels (columns data))) ->
  yf_again t' a' b' = Downloaded (fst (get_data yf_download t a b)) ->
  fst (get_data yf_again t' a' b') = fst (get_data yf_download t a b).
Proof.
  intros Hdl Hu Hnd Hagain.
  rewrite (get_data_closed_form yf_download t a b data Hdl Hu) in *.
  cbn [fst] in *.
  set (cols := select required_cols (normalized data)) in *.
  assert (Hlabels : labels cols = required_cols).
  { apply labels_select.
    - now rewrite labels_normalized.
    - intros n Hn. now apply required_present. }
  set (r := {| index := index data; columns := Index cols |}) in *.
  assert (Hnorm : normalized r = cols).
  { unfold normalized, r. simpl.
    rewrite <- (map_id cols) at 2. apply map_ext_in.
    intros [l v] Hin. simpl. rewrite normalize_required; [reflexivity|].
    rewrite <- Hlabels. unfold labels. apply in_map_iff.
    exists (l, v). auto. }
  assert (Hidx : (length (index data) =? 0)%nat = false).
  { simpl in Hu. apply orb_false_iff in Hu. destruct Hu as [Hne _].
    unfold empty in Hne. apply orb_false_iff in Hne. tauto. }
  assert (Hu' : data_unavailable (Downloaded r) = false).
  { simpl. apply orb_false_iff. split.
    - unfold empty, r. simpl. rewrite Hidx. simpl.
      destruct cols; [discriminate Hlabels | reflexivity].
    - unfold lacks_required. rewrite <- labels_normalized, Hnorm, Hlabels.
      reflexivity. }
  rewrite (get_data_closed_form yf_again t' a' b' r Hagain Hu').
  cbn [fst]. rewrite Hnorm. unfold r. cbn [index]. f_equal. f_equal.
  rewrite <- Hlabels at 1. apply select_self.
  rewrite Hlabels. repeat constructor; simpl; intuition discriminate.
Qed.

Lemma two_days_labels_distinct :
  NoDup (map normalize
           (raw_labels
              (columns
                 {| index := [day_of 0; day_of 1];
                    columns := MultiIndex
                      [(("Close", "AAPL"), [11; 11]);
                       (("High", "AAPL"), [12; 12]);
                       (("Low", "AAPL"), [9; 10]);
                       (("Open", "AAPL"), [10; 11]);
                       (("Volume", "AAPL"), [5000; 7000])]%string |}))).
Proof.
  vm_compute. repeat constructor; simpl; intuition discriminate.
Qed.

Lemma get_data_success_shape_witness :
  exists cols,
    fst (get_data provider_two_days "AAPL" jan_2018 jan_2023)
    = {| index := [day_of 0; day_of 1]; columns := Index cols |}
    /\ labels cols = required_cols.
Proof.
  destruct (get_data_success_shape provider_two_days "AAPL" jan_2018
              jan_2023 _ eq_refl eq_refl)
    as (cols & Hfst & _ & _ & Hlabels).
  exists cols. split; [exact Hfst|].
  apply Hlabels. exact two_days_labels_distinct.
Defined.

Lemma get_data_idempotent_witness :
  fst (get_data provider_refetch "AAPL" jan_2018 jan_2023)
  = fst (get_data provider_two_days "AAPL" jan_2018 jan_2023).
Proof.
  exact (get_data_idempotent provider_two_days provider_refetch
           "AAPL" "AAPL" jan_2018 jan_2023 jan_2018 jan_2023 _
           eq_refl eq_refl two_days_labels_distinct eq_refl).
Defined.

(* ================================================================== *)
(** ** More on the handler *)

Lemma get_data_fetch_effects
    (yf_download : string -> Date -> Date -> Download)
    (t : string) (a b : Date) :
  Forall (fun e => fetch_effect e = true) (snd (get_data yf_download t a b)).
Proof.
  unfold get_data. destruct (yf_download t a b) as [|data].
  - repeat constructor.
  - destruct (empty data).
    + repeat constructor.
    + match goal with
      | |- context [filter ?f required_cols] =>
          destruct (filter f required_cols)
      end; repeat constructor.
Qed.

Section HandlerFacts.

Variable crossover : list Bar -> Q.
Variable sharpe_value : list Q -> Q.
Variable returns_analysis : list Q -> list (string * Q).
Variable drawdown_analysis : list Q -> list (string * list (string * Q)).
Variable yf_download : string -> Date -> Date -> Download.

Local Abbreviation page ui :=
  (on_click crossover sharpe_value returns_analysis drawdown_analysis
     yf_download ui).

Local Abbreviation simulate ui :=
  (run_backtest crossover sharpe_value returns_analysis drawdown_analysis
     (bars_of_frame
        (fst (get_data yf_download (ticker ui) (start_date ui)
                (end_date ui))))
     (logic_mode ui) (initial_cash ui)).

Local Abbreviation fetched ui :=
  (yf_download (ticker ui) (start_date ui) (end_date ui)).

(** The three ways a click can go. *)
Lemma on_click_cases (ui : Sidebar) :
  (date_ge (start_date ui) (end_date ui) = true
   /\ page ui = ([st_error StartNotBeforeEnd], None))
  \/ (date_ge (start_date ui) (end_date ui) = false
      /\ data_unavailable (fetched ui) = true
      /\ exists fx, Forall (fun e => fetch_effect e = true) fx
                    /\ page ui = (fx ++ [st_error BacktestFailed], None))
  \/ (date_ge (start_date ui) (end_date ui) = false
      /\ data_unavailable (fetched ui) = false
      /\ let call := yf_download_call (ticker ui) (start_date ui)
                       (end_date ui) in
         let run := cerebro_run_call (logic_mode ui) (initial_cash ui) in
         page ui
         = match simulate ui with
           | Raise e => ([call; run], Some e)
           | Ok m => ([call; run; st_results m]
                        ++ match trade_log m with
                           | [] => [st_info_no_trades]
                           | _ :: _ => []
                           end, None)
           end).
Proof.
  destruct (date_ge (start_date ui) (end_date ui)) eqn:Hd.
  - left. split; [reflexivity|]. unfold on_click. now rewrite Hd.
  - right.
    destruct (data_unavailable
                (yf_download (ticker ui) (start_date ui) (end_date ui)))
      eqn:Hu.
    + left. split; [reflexivity|]. split; [reflexivity|].
      eexists. split; [apply get_data_fetch_effects|].
      now apply on_click_unavailable.
    + right. split; [reflexivity|]. split; [reflexivity|].
      destruct (get_data_available yf_download _ _ _ Hu) as [Hne Hfx].
      unfold on_click. rewrite Hd.
      destruct (get_data yf_download (ticker ui) (start_date ui)
                  (end_date ui)) as [data fx].
      simpl in Hne, Hfx. subst fx. rewrite Hne. simpl.
      destruct (run_backtest _ _ _ _ _ _ _); reflexivity.
Qed.

Lemma fetch_effect_in (fx : list Effect) (e : Effect) :
  Forall (fun x => fetch_effect x = true) fx -> In e fx ->
  fetch_effect e = true.
Proof. intros H Hin. rewrite Forall_forall in H. now apply H. Qed.

(** X15. A click runs the simulation exactly when the start date is
    before the end date and the fetch found usable data; it then runs it
    with the logic and the initial cash of the sidebar. *)
Theorem simulation_runs_iff (ui : Sidebar) (l : string) (c : Q) :
  In (cerebro_run_call l c) (fst (page ui)) <->
  date_ge (start_date ui) (end_date ui) = false
  /\ data_unavailable (fetched ui) = false
  /\ l = logic_mode ui /\ c = initial_cash ui.
Proof.
  destruct (on_click_cases ui)
    as [(Hd & ->)|[(Hd & Hu & fx & Hfx & ->)|(Hd & Hu & ->)]].
  - split.
    + simpl. intuition discriminate.
    + intros (H & _). congruence.
  - split.
    + cbn [fst]. intro Hin. apply in_app_or in Hin.
      destruct Hin as [Hin|Hin].
      * apply (fetch_effect_in fx _ Hfx) in Hin. discriminate Hin.
      * simpl in Hin. intuition discriminate.
    + intros (_ & H & _). congruence.
  - split.
    + intro Hin.
      assert (Hrun : cerebro_run_call l c
                     = cerebro_run_call (logic_mode ui) (initial_cash ui)).
      { destruct (simulate ui) as [m|e]; cbn [fst] in Hin.
        - destruct Hin as [H|[H|Hin]]; [discriminate | now symmetry |].
          destruct Hin as [H|Hin]; [discriminate|].
          destruct (trade_log m); simpl in Hin; intuition discriminate.
        - destruct Hin as [H|[H|[]]]; [discriminate | now symmetry]. }
      injection Hrun as -> ->. auto.
    + intros (_ & _ & -> & ->).
      destruct (simulate ui); cbn [fst]; right; left; reflexivity.
Qed.

(** X16. How a click ends.  It shows a result exactly when the dates
    are in order, the data is usable and [run_backtest] returns that
    result; it ends on an exception exactly when [run_backtest] raises
    it; a click that shows a result writes no error; and the notice that
    there were no trades is written exactly when a result with an empty
    log is shown. *)
Theorem click_outcome (ui : Sidebar) :
  (forall m,
     In (st_results m) (fst (page ui)) <->
     date_ge (start_date ui) (end_date ui) = false
     /\ data_unavailable (fetched ui) = false
     /\ simulate ui = Ok m)
  /\ (forall e,
        snd (page ui) = Some e <->
        date_ge (start_date ui) (end_date ui) = false
        /\ data_unavailable (fetched ui) = false
        /\ simulate ui = Raise e)
  /\ (forall m err,
        In (st_results m) (fst (page ui)) ->
        ~ In (st_error err) (fst (page ui)))
  /\ (In st_info_no_trades (fst (page ui)) <->
      exists m, In (st_results m) (fst (page ui)) /\ trade_log m = []).
Proof.
  destruct (on_click_cases ui)
    as [(Hd & ->)|[(Hd & Hu & fx & Hfx & ->)|(Hd & Hu & ->)]];
    cbn [fst snd].
  - split; [|split; [|split]].
    + intro m. split.
      * simpl. intuition discriminate.
      * intros (H & _). congruence.
    + intro e. split; [discriminate | intros (H & _); congruence].
    + intros m err Hin. simpl in Hin. intuition discriminate.
    + split.
      * simpl. intuition discriminate.
      * intros (m & Hin & _). simpl in Hin. intuition discriminate.
  - assert (Hno : forall e, fetch_effect e = false ->
                            ~ In e (fx ++ [st_error BacktestFailed])).
    { intros e He Hin. apply in_app_or in Hin. destruct Hin as [Hin|Hin].
      - apply (fetch_effect_in fx _ Hfx) in Hin. congruence.
      - simpl in Hin. destruct Hin as [<-|[]]. discriminate He. }
    split; [|split; [|split]].
    + intro m. split.
      * intro Hin. exfalso. exact (Hno (st_results m) eq_refl Hin).
      * intros (_ & H & _). congruence.
    + intro e. split; [discriminate | intros (_ & H & _); congruence].
    + intros m err Hin. exfalso. exact (Hno (st_results m) eq_refl Hin).
    + split.
      * intro Hin. exfalso. exact (Hno st_info_no_trades eq_refl Hin).
      * intros (m & Hin & _). exfalso.
        exact (Hno (st_results m) eq_refl Hin).
  - destruct (simulate ui) as [m0|e0]; cbn [fst snd].
    + assert (Htail : forall e,
                In e match trade_log m0 with
                     | [] => [st_info_no_trades]
                     | _ :: _ => []
                     end ->
                e = st_info_no_trades /\ trade_log m0 = []).
      { intros e Hin. destruct (trade_log m0); simpl in Hin.
        - destruct Hin as [<-|[]]. auto.
        - contradiction. }
      split; [|split; [|split]].
      * intro m. split.
        -- intro Hin. destruct Hin as [H|[H|[H|Hin]]]; try discriminate.
           ++ now injection H as ->.
           ++ apply Htail in Hin. destruct Hin as [H _]. discriminate H.
        -- intros (_ & _ & H). injection H as ->. right. right. left.
           reflexivity.
      * intro e. split; [discriminate | intros (_ & _ & H); discriminate H].
      * intros m err _ Hin.
        destruct Hin as [H|[H|[H|Hin]]]; try discriminate.
        apply Htail in Hin. destruct Hin as [H _]. discriminate H.
      * split.
        -- intro Hin. exists m0. split; [right; right; left; reflexivity|].
           destruct Hin as [H|[H|[H|Hin]]]; try discriminate.
           apply Htail in Hin. tauto.
        -- intros (m & Hin & Hlog).
           assert (Hm : m = m0).
           { destruct Hin as [H|[H|[H|Hin]]]; try discriminate.
             - now injection H.
             - apply Htail in Hin. destruct Hin as [H _]. discriminate H. }
           subst m. rewrite Hlog. simpl. auto.
    + split; [|split; [|split]].
      * intro m. split.
        -- simpl. intuition discriminate.
        -- intros (_ & _ & H). discriminate H.
      * intro e. split.
        -- intro H. now injection H as ->.
        -- intros (_ & _ & H). now injection H as ->.
      * intros m err Hin. simpl in Hin. intuition discriminate.
      * split.
        -- simpl. intuition discriminate.
        -- intros (m & Hin & _). simpl in Hin. intuition discriminate.
Qed.

End HandlerFacts.

(* ================================================================== *)
(** ** More on [run_backtest] *)

Section DriverFacts.

Variable crossover : list Bar -> Q.
Variable sharpe_value : list Q -> Q.
Variable returns_analysis : list Q -> list (string * Q).
Variable drawdown_analysis : list Q -> list (string * list (string * Q)).

Lemma run_backtest_Ok_inv (data : list Bar) (l : string) (initial_cash : Q)
    (m : Metrics) :
  run_backtest crossover sharpe_value returns_analysis drawdown_analysis
    data l initial_cash = Ok m ->
  ~ initial_cash == 0
  /\ total_return m = (final_value m - initial_cash) / initial_cash * 100.
Proof.
  unfold run_backtest.
  destruct (cerebro_run crossover (with_logic default_params l) data
              (new_broker initial_cash (1 # 1000))) as [recs r].
  intro H.
  apply bind_Ok_iff in H. destruct H as ([st b] & _ & H).
  apply bind_Ok_iff in H. destruct H as (sharpe_dict & _ & H).
  apply bind_Ok_iff in H. destruct H as (ret & Hret & H).
  apply truediv_Ok_iff in Hret. destruct Hret as [Hnz ->].
  injection H as <-. simpl. auto.
Qed.

(** X17. With an initial cash of zero [run_backtest] never returns a
    result: whatever the data and the logic, it raises. *)
Theorem zero_cash_raises (data : list Bar) (l : string) (initial_cash : Q) :
  initial_cash == 0 ->
  exists e,
    run_backtest crossover sharpe_value returns_analysis drawdown_analysis
      data l initial_cash = Raise e.
Proof.
  intro Hz.
  destruct (run_backtest crossover sharpe_value returns_analysis
              drawdown_analysis data l initial_cash) as [m|e] eqn:E.
  - apply run_backtest_Ok_inv in E. destruct E as [Hnz _]. contradiction.
  - exists e. reflexivity.
Qed.

End DriverFacts.

Lemma zero_cash_raises_witness :
  exists e,
    run_backtest no_cross zero_sharpe no_returns no_drawdown
      exit_run "OR" 0 = Raise e.
Proof.
  apply zero_cash_raises. reflexivity.
Defined.

